(** * nl_to_sql: the request pipeline of [backend/main.py]

    A shallow embedding of [process_query] (the POST /process_query/
    endpoint) and of the collaborators it drives: the rate limiter
    ([IPTracker]), the SQL generator and executor ([SQLGenerator]), the
    SQL safety validator ([SQLValidator]) and the logging plumbing
    ([logger], [LogManager]).

    Python strings are modelled as [string] (sequences of code points
    below 256), Python dictionaries that are returned to the caller as
    association lists in insertion order, and an exception by its text
    ([str(e)]). *)

From Stdlib Require Import ZArith String Ascii List Bool Lia DecimalString.
From stdpp Require Import base tactics list strings.

Import ListNotations.
Local Open Scope string_scope.
Local Open Scope Z_scope.

(** ** Python string primitives used by the endpoint *)

Module PyStr.

(** [str.isspace] on one code point below 256: TAB..CR, FS..US, space,
    NEL and NBSP. *)
Definition is_space (c : ascii) : bool :=
  let n := nat_of_ascii c in
  ((9 <=? n) && (n <=? 13))%nat || ((28 <=? n) && (n <=? 32))%nat
  || (n =? 133)%nat || (n =? 160)%nat.

Fixpoint lstrip (s : string) : string :=
  match s with
  | String c s' => if is_space c then lstrip s' else s
  | EmptyString => EmptyString
  end.

(** Right strip: a character is dropped when it is white space and so
    is everything after it. *)
Fixpoint rstrip (s : string) : string :=
  match s with
  | EmptyString => EmptyString
  | String c s' =>
      match rstrip s' with
      | EmptyString => if is_space c then EmptyString else String c EmptyString
      | r => String c r
      end
  end.

(** [s.strip()] *)
Definition strip (s : string) : string := rstrip (lstrip s).

(** [s.startswith(p)] *)
Definition startswith (s p : string) : bool := String.prefix p s.

(** [s.replace(old, new)] for a non-empty [old]: the occurrences are
    taken left to right and do not overlap.  [skip] counts the
    characters of a matched occurrence that are still to be dropped. *)
Fixpoint replace_from (skip : nat) (old new s : string) : string :=
  match s with
  | EmptyString => EmptyString
  | String c s' =>
      match skip with
      | S k => replace_from k old new s'
      | O =>
          if String.prefix old s
          then new ++ replace_from (Nat.pred (String.length old)) old new s'
          else String c (replace_from O old new s')
      end
  end.

Definition replace (s old new : string) : string := replace_from O old new s.

(** [s.split(sep)[0]] for a one-character separator. *)
Fixpoint split_head (sep : ascii) (s : string) : string :=
  match s with
  | EmptyString => EmptyString
  | String c s' => if Ascii.eqb c sep then EmptyString else String c (split_head sep s')
  end.

(** [s[:n]] *)
Definition take (n : nat) (s : string) : string := String.substring 0 n s.

(** [s[n:]] *)
Fixpoint drop (n : nat) (s : string) : string :=
  match n, s with
  | S k, String _ s' => drop k s'
  | _, _ => s
  end.

(** [str(i)] for an integer. *)
Definition of_Z (z : Z) : string := NilZero.string_of_int (Z.to_int z).

(** [str(len(l))] *)
Definition of_nat (n : nat) : string := NilZero.string_of_uint (Nat.to_uint n).

(** [old in s] *)
Fixpoint contains (old s : string) : bool :=
  match s with
  | EmptyString => String.prefix old EmptyString
  | String _ s' => String.prefix old s || contains old s'
  end.

End PyStr.

(** ** Collaborator calls, programs and runs *)

(** The outcome of a call: a value, or an exception carried as [str(e)].
    The exceptions are those of class [Exception], the class every
    handler of the endpoint names ([except Exception], lines 162, 224,
    261 and 280); an exception that derives from [BaseException] only
    ([SystemExit], [KeyboardInterrupt], [GeneratorExit]) is caught by
    none of them and is not part of this development. *)
Inductive res (A : Type) : Type :=
| Ok (a : A)
| Raise (e : string).
Arguments Ok {A} a.
Arguments Raise {A} e.

(** [LogLevel] *)
Inductive LogLevel := INFO | WARNING | ERROR.

(** The executor's result in serialized form:
    [json.loads(df.to_json(orient="records", double_precision=2))],
    a list of rows, each a list of (column, serialized cell). *)
Definition rows := list (list (string * string)).

(** Every call [process_query] makes outside of itself, indexed by the
    type of what it returns.  [sql_generator_get_sql_for_query] stands for
    lines 158-161 (the generator call, [json.loads] of its answer and the
    lookup of the ["sql_query"] key, all three inside the same [try]): it
    returns the query text, which section 6 of the specification makes a
    string, and raises when any of the three does;
    [sql_generator_fetch_data] stands for lines 235-239 (the executor call
    and the serialization of its data frame). *)
Inductive call : Type -> Type :=
| logger_info (msg : string) : call unit
| logger_warning (msg : string) : call unit
| logger_error (msg : string) : call unit
| LogManager_log_to_db (lvl : LogLevel) (msg : string)
    (source : option string) (ip_address : string) : call unit
| LogManager_log_app_activity (lvl : LogLevel) (msg : string) : call unit
| IPTracker_get_global_remaining_requests : call Z
| IPTracker_check_ip_limit (ip : string) : call bool
| IPTracker_get_ip_remaining_requests (ip : string) : call Z
| IPTracker_record_query_history (ip user_query sql_query : string)
    (success : bool) : call unit
| sql_generator_get_sql_for_query (user_query system_prompt : string) : call string
| SQLValidator_validate (sql_query : string) : call (bool * option string)
| sql_generator_fetch_data (sql_query : string) : call rows.

(** A program: a finite tree of calls.  The continuation of a call
    receives its outcome, so that the tree itself says which handler an
    exception reaches. *)
Inductive prog (A : Type) : Type :=
| Ret (a : A)
| Throw (e : string)
| Call {X : Type} (c : call X) (k : res X -> prog A).
Arguments Ret {A} a.
Arguments Throw {A} e.
Arguments Call {A X} c k.

Fixpoint bind {A B} (m : prog A) (f : A -> prog B) : prog B :=
  match m with
  | Ret a => f a
  | Throw e => Throw e
  | Call c k => Call c (fun r => bind (k r) f)
  end.

(** [try: m except Exception as e: handler e]; an exception raised by the
    handler itself is not caught. *)
Fixpoint try_catch {A} (m : prog A) (handler : string -> prog A) : prog A :=
  match m with
  | Ret a => Ret a
  | Throw e => handler e
  | Call c k => Call c (fun r => try_catch (k r) handler)
  end.

(** A call whose exception propagates. *)
Definition perform {X} (c : call X) : prog X :=
  Call c (fun r => match r with Ok x => Ret x | Raise e => Throw e end).

(** Sequencing is written with the monad notations [x ← m; k] and
    [m;; k]. *)
#[export] Instance prog_ret : MRet prog := @Ret.
#[export] Instance prog_bind : MBind prog := fun A B f m => bind m f.

(** One observed call and its outcome. *)
Inductive event : Type :=
| Ev {X : Type} (c : call X) (r : res X).

(** The world outside [process_query]: a state and the answer (and state
    change) of every call. *)
Definition handler (W : Type) : Type := forall X : Type, call X -> W -> W * res X.

(** The result of a run: final world, calls made in order, outcome. *)
Record run_result (W A : Type) : Type := mk_run
  { final : W; trace : list event; outcome : res A }.
Arguments mk_run {W A}.
Arguments final {W A}.
Arguments trace {W A}.
Arguments outcome {W A}.

Fixpoint run {W A} (h : handler W) (p : prog A) (w : W) : run_result W A :=
  match p with
  | Ret a => mk_run w [] (Ok a)
  | Throw e => mk_run w [] (Raise e)
  | Call c k =>
      let wr := h _ c w in
      let rest := run h (k (snd wr)) (fst wr) in
      mk_run (final rest) (Ev c (snd wr) :: trace rest) (outcome rest)
  end.

(** [behaves p t out]: some world makes [p] perform exactly the calls [t]
    and end with [out]. *)
Fixpoint behaves {A} (p : prog A) (t : list event) (out : res A) : Prop :=
  match p with
  | Ret a => t = [] /\ out = Ok a
  | Throw e => t = [] /\ out = Raise e
  | Call c k => exists r t', t = Ev c r :: t' /\ behaves (k r) t' out
  end.

(** ** The endpoint [process_query] *)

(** What a response dictionary holds. *)
#[warnings="-register-all"]
Inductive value : Type :=
| VStr (s : string)
| VInt (z : Z)
| VRows (r : rows)
| VDict (d : list (string * value)).

(** A response: the returned dictionary, keys in insertion order. *)
Definition response := list (string * value).

(** [d.get(key)] *)
Fixpoint field (key : string) (d : response) : option value :=
  match d with
  | [] => None
  | (k, v) :: d' => if String.eqb k key then Some v else field key d'
  end.

(** What the endpoint reads of the HTTP request. *)
Record request : Type := mk_request
  { form_user_query : option string   (* user_query: str = Form(None) *)
  ; json_user_query : option string   (* query_request, by its get_query() *)
  ; x_forwarded_for : option string   (* request.headers.get("X-Forwarded-For") *)
  ; client_host : option string       (* request.client.host; None: no request.client *)
  }.

Definition msg_no_query : string :=
  "No query provided. Please submit a 'user_query' parameter.".
Definition msg_global_limit : string :=
  "The service has reached its daily request limit. Please try again tomorrow.".
Definition msg_ip_limit (ip_remaining : Z) : string :=
  "You have exceeded your daily limit. You have " ++ PyStr.of_Z ip_remaining
  ++ " requests remaining for today.".
Definition msg_try_later : string :=
  "Try again later. The server is having trouble.".
Definition msg_unsafe (error_message : string) : string :=
  "I don't answer unsafe query: " ++ error_message.
Definition msg_execution_failed : string :=
  "Oops! Something went wrong while trying to get your answer.".
Definition msg_invalid_format : string :=
  "Invalid request format. Please ensure you're sending the correct form data.".

(** [str(x)] of the validator's message, which may be [None]. *)
Definition str_opt (o : option string) : string :=
  match o with Some s => s | None => "None" end.

Section Endpoint.

(** The module-level [system_prompt], read from a file at start-up. *)
Variable system_prompt : string.

(** Step 2: the client address. *)
Definition client_ip_of (req : request) : prog string :=
  match x_forwarded_for req with
  | Some (String c f) => Ret (PyStr.strip (PyStr.split_head "," (String c f)))
  | _ =>
      match client_host req with
      | Some host => Ret host
      | None => Throw "'NoneType' object has no attribute 'host'"
      end
  end.

(** The ["remaining_requests"] entry of a response; the user figure is
    read first. *)
Definition remaining_requests (client_ip : string) : prog value :=
  user_remaining ← perform (IPTracker_get_ip_remaining_requests client_ip);
  global_remaining ← perform IPTracker_get_global_remaining_requests;
  Ret (VDict [("user_remaining", VInt user_remaining);
              ("global_remaining", VInt global_remaining)]).

(** The outcome of steps 3 and 4. *)
Inductive admission : Type :=
| Allowed
| GlobalLimitReached
| IpLimitReached (ip_remaining : Z).

(** Steps 3 and 4 (lines 132-154): the global limit, then the limit of
    the address. *)
Definition check_and_admit (client_ip : string) : prog admission :=
  global_remaining ← perform IPTracker_get_global_remaining_requests;
  if global_remaining <=? 0 then
    perform (logger_warning "Global daily limit reached");;
    perform (LogManager_log_to_db WARNING "Global daily limit reached" None client_ip);;
    Ret GlobalLimitReached
  else
    within_limit ← perform (IPTracker_check_ip_limit client_ip);
    if negb within_limit then
      ip_remaining ← perform (IPTracker_get_ip_remaining_requests client_ip);
      perform (logger_warning ("IP " ++ client_ip ++ " exceeded request limit"));;
      perform (LogManager_log_to_db WARNING
                 ("IP exceeded request limit: " ++ client_ip) None client_ip);;
      Ret (IpLimitReached ip_remaining)
    else Ret Allowed.

(** Step 5 (lines 156-175): the generated query, or the response of the
    [except] branch. *)
Definition generate (client_ip user_query : string) : prog (string + response) :=
  try_catch
    (sql_query ← perform (sql_generator_get_sql_for_query user_query system_prompt);
     perform (logger_info ("SQL query generated: " ++ PyStr.take 50 sql_query ++ "..."));;
     Ret (inl sql_query))
    (fun e =>
       let error_msg := "Failed to generate SQL: " ++ e in
       perform (logger_error error_msg);;
       perform (LogManager_log_to_db ERROR error_msg (Some "SQL generation") client_ip);;
       remaining ← remaining_requests client_ip;
       Ret (inr [("error", VStr msg_try_later); ("remaining_requests", remaining)])).

(** Step 6 (lines 178-199): the generator answered with an error text. *)
Definition generator_error (client_ip user_query sql_query : string) : prog response :=
  perform (IPTracker_record_query_history client_ip user_query sql_query false);;
  let error_msg := PyStr.strip (PyStr.replace sql_query "ERROR:" "") in
  perform (logger_warning ("SQL generation returned error: " ++ error_msg));;
  perform (LogManager_log_to_db WARNING ("SQL generation error: " ++ error_msg)
             (Some "SQL generation") client_ip);;
  remaining ← remaining_requests client_ip;
  Ret [("sql_query", VStr sql_query); ("error", VStr error_msg);
       ("remaining_requests", remaining)].

(** Step 6.5 (lines 201-232): [Some] response when the validator says
    the query is not valid; [None] when execution goes on, which is also
    where the [except] branch ends. *)
Definition validation (client_ip user_query sql_query : string) : prog (option response) :=
  try_catch
    (verdict ← perform (SQLValidator_validate sql_query);
     let '(is_valid, error_message) := verdict in
     if negb is_valid then
       perform (logger_warning ("SQL validation failed in process_query step: "
                                ++ str_opt error_message));;
       perform (LogManager_log_to_db WARNING
                  ("SQL validation failed: " ++ str_opt error_message)
                  (Some "SQL validation") client_ip);;
       perform (IPTracker_record_query_history client_ip user_query sql_query false);;
       remaining ← remaining_requests client_ip;
       Ret (Some [("sql_query", VStr sql_query);
                  ("error", VStr (msg_unsafe (str_opt error_message)));
                  ("remaining_requests", remaining)])
     else Ret None)
    (fun e =>
       perform (logger_error ("Error during SQL validation step: " ++ e));;
       perform (LogManager_log_to_db WARNING ("SQL validation error: " ++ e)
                  (Some "SQL validation") client_ip);;
       Ret None).

(** Step 7 (lines 234-279). *)
Definition execution (client_ip user_query sql_query : string) : prog response :=
  try_catch
    (json_result ← perform (sql_generator_fetch_data sql_query);
     perform (IPTracker_record_query_history client_ip user_query sql_query true);;
     perform (logger_info ("Query executed successfully with "
                           ++ PyStr.of_nat (List.length json_result)
                           ++ " results (numeric values rounded to 2 decimal places)"));;
     perform (LogManager_log_app_activity INFO
                ("Successful query from " ++ client_ip ++ ": "
                 ++ PyStr.take 50 user_query ++ "..."));;
     remaining ← remaining_requests client_ip;
     Ret [("sql_query", VStr sql_query); ("result", VRows json_result);
          ("remaining_requests", remaining)])
    (fun e =>
       perform (IPTracker_record_query_history client_ip user_query sql_query false);;
       let error_msg := "Error executing query: " ++ e in
       perform (logger_error error_msg);;
       perform (LogManager_log_to_db ERROR error_msg (Some "SQL execution") client_ip);;
       remaining ← remaining_requests client_ip;
       Ret [("sql_query", VStr sql_query); ("error", VStr msg_execution_failed);
            ("remaining_requests", remaining)]).

(** The body of the outer [try] (lines 120-279). *)
Definition pipeline (req : request) (user_query : string) : prog response :=
  perform (logger_info ("Received query: " ++ user_query));;
  client_ip ← client_ip_of req;
  perform (logger_info ("Request from IP: " ++ client_ip));;
  verdict ← check_and_admit client_ip;
  match verdict with
  | GlobalLimitReached => Ret [("error", VStr msg_global_limit)]
  | IpLimitReached ip_remaining => Ret [("error", VStr (msg_ip_limit ip_remaining))]
  | Allowed =>
      generated ← generate client_ip user_query;
      match generated with
      | inr failure => Ret failure
      | inl sql_query =>
          if PyStr.startswith sql_query "ERROR:" then
            generator_error client_ip user_query sql_query
          else
            rejected ← validation client_ip user_query sql_query;
            match rejected with
            | Some failure => Ret failure
            | None => execution client_ip user_query sql_query
            end
      end
  end.

(** The outer [except] (lines 280-291). *)
Definition catch_all (req : request) (e : string) : prog response :=
  perform (logger_error ("Validation error in process_query: " ++ e));;
  perform (LogManager_log_to_db ERROR ("Validation error: " ++ e) (Some "API endpoint")
             (match client_host req with Some host => host | None => "unknown" end));;
  Ret [("error", VStr msg_invalid_format); ("details", VStr e)].

(** [process_query] (lines 105-291). *)
Definition process_query (req : request) : prog response :=
  match form_user_query req, json_user_query req with
  | None, None =>
      perform (logger_error "No query provided in request");;
      Ret [("error", VStr msg_no_query)]
  | Some user_query, _ | None, Some user_query =>
      try_catch (pipeline req user_query) (catch_all req)
  end.

End Endpoint.

(** ** Reading a trace *)

(** Who is called. *)
Inductive collaborator : Type :=
| Logging      (* logger, LogManager *)
| RateLimiter  (* IPTracker *)
| Generator    (* sql_generator.get_sql_for_query *)
| Validator    (* SQLValidator.validate *)
| Executor.    (* sql_generator.fetch_data *)

Definition collaborator_eqb (a b : collaborator) : bool :=
  match a, b with
  | Logging, Logging | RateLimiter, RateLimiter | Generator, Generator
  | Validator, Validator | Executor, Executor => true
  | _, _ => false
  end.

Definition callee {X} (c : call X) : collaborator :=
  match c with
  | logger_info _ | logger_warning _ | logger_error _
  | LogManager_log_to_db _ _ _ _ | LogManager_log_app_activity _ _ => Logging
  | IPTracker_get_global_remaining_requests | IPTracker_check_ip_limit _
  | IPTracker_get_ip_remaining_requests _
  | IPTracker_record_query_history _ _ _ _ => RateLimiter
  | sql_generator_get_sql_for_query _ _ => Generator
  | SQLValidator_validate _ => Validator
  | sql_generator_fetch_data _ => Executor
  end.

Definition called (e : event) : collaborator :=
  match e with Ev c _ => callee c end.

Definition raised (e : event) : bool :=
  match e with Ev _ (Raise _) => true | Ev _ (Ok _) => false end.

(** No call to [who] in the trace. *)
Definition never_calls (who : collaborator) (t : list event) : bool :=
  forallb (fun e => negb (collaborator_eqb (called e) who)) t.

(** Every call that raised went to a collaborator in [who]. *)
Definition only_raise (who : list collaborator) (t : list event) : bool :=
  forallb (fun e => negb (raised e) || existsb (collaborator_eqb (called e)) who) t.

(** The answers of the generator, in order. *)
Definition generated (t : list event) : list (res string) :=
  flat_map (fun e =>
    match e with
    | Ev c r =>
        match c in call X return res X -> list (res string) with
        | sql_generator_get_sql_for_query _ _ => fun r => [r]
        | _ => fun _ => []
        end r
    end) t.

(** The queries given to the validator, each with the outcome. *)
Definition validated (t : list event) : list (string * res (bool * option string)) :=
  flat_map (fun e =>
    match e with
    | Ev c r =>
        match c in call X return res X -> list (string * res (bool * option string)) with
        | SQLValidator_validate sql => fun r => [(sql, r)]
        | _ => fun _ => []
        end r
    end) t.

(** The queries given to the executor, each with the outcome. *)
Definition executed (t : list event) : list (string * res rows) :=
  flat_map (fun e =>
    match e with
    | Ev c r =>
        match c in call X return res X -> list (string * res rows) with
        | sql_generator_fetch_data sql => fun r => [(sql, r)]
        | _ => fun _ => []
        end r
    end) t.

(** One entry of the query history:
    [record_query_history(client_ip, user_query, sql_query, success)]. *)
Record QueryAttempt : Type := mk_attempt
  { client_ip : string
  ; natural_language_query : string
  ; generated_sql : string
  ; succeeded : bool }.

(** The history entries written, in order. *)
Definition recorded (t : list event) : list QueryAttempt :=
  flat_map (fun e =>
    match e with
    | Ev c _ =>
        match c with
        | IPTracker_record_query_history ip q sql ok => [mk_attempt ip q sql ok]
        | _ => []
        end
    end) t.

(** The first answer to [get_global_remaining_requests]: the figure the
    admission decision of step 3 reads. *)
Fixpoint first_global_remaining (t : list event) : option (res Z) :=
  match t with
  | [] => None
  | Ev c r :: t' =>
      match c in call X return res X -> option (res Z) with
      | IPTracker_get_global_remaining_requests => fun r => Some r
      | _ => fun _ => first_global_remaining t'
      end r
  end.

(** The text given to the loggers and to the log database. *)
Definition logged (t : list event) : list string :=
  flat_map (fun e =>
    match e with
    | Ev c _ =>
        match c with
        | logger_info m | logger_warning m | logger_error m
        | LogManager_log_to_db _ m _ _ | LogManager_log_app_activity _ m => [m]
        | _ => []
        end
    end) t.

(** ** A scripted world

    The answer of each collaborator is fixed in advance; logging and
    history recording return normally. *)
Record script : Type := mk_script
  { global_remaining_is : res Z
  ; within_limit_is : res bool
  ; ip_remaining_is : res Z
  ; generator_says : res string
  ; validator_says : res (bool * option string)
  ; executor_says : res rows }.

Definition scripted (s : script) : handler unit :=
  fun X c w =>
    (w, match c in call X return res X with
        | logger_info _ | logger_warning _ | logger_error _
        | LogManager_log_to_db _ _ _ _ | LogManager_log_app_activity _ _ => Ok tt
        | IPTracker_get_global_remaining_requests => global_remaining_is s
        | IPTracker_check_ip_limit _ => within_limit_is s
        | IPTracker_get_ip_remaining_requests _ => ip_remaining_is s
        | IPTracker_record_query_history _ _ _ _ => Ok tt
        | sql_generator_get_sql_for_query _ _ => generator_says s
        | SQLValidator_validate _ => validator_says s
        | sql_generator_fetch_data _ => executor_says s
        end).

(** The query a request carries: the form field, else the JSON body. *)
Definition submitted_query (req : request) : option string :=
  match form_user_query req, json_user_query req with
  | Some user_query, _ | None, Some user_query => Some user_query
  | None, None => None
  end.

(** The shape section 6 of the specification gives to a response:
    [sql_query], [result] or [error], and [remaining_requests] with both
    figures. *)
Definition full_shape (resp : response) : bool :=
  match field "sql_query" resp with Some (VStr _) => true | _ => false end
  && (match field "result" resp with Some _ => true | None => false end
      || match field "error" resp with Some _ => true | None => false end)
  && match field "remaining_requests" resp with
     | Some (VDict [("user_remaining", VInt _); ("global_remaining", VInt _)]) => true
     | _ => false
     end.

(** ** The SQL safety validator *)

Module SqlSafety.

(** Modelled from the spec: [services/sql_validator.py]
    ([SQLValidator.validate]) is missing from the sources, which only
    call it.  Section 4.3 of the specification gives its policy; this
    module follows it: a lexer that drops comments and keeps a string
    literal as one token, then the checks in the order of the
    specification. *)
Inductive token : Type :=
| TWord (w : string)       (* keyword, identifier or number *)
| TLiteral (body : string) (* '...' *)
| TSemicolon               (* statement terminator *)
| TSymbol (c : ascii).     (* any other character *)

(** Where the lexer is. *)
Inductive mode : Type :=
| Code
| Word (acc : string)
| Literal (acc : string)
| LiteralQuote (acc : string)  (* a quote inside a literal: its end, or half of '' *)
| LineComment
| BlockComment
| BlockStar                    (* a star inside a block comment *)
| Dash                         (* one dash *)
| Slash.                       (* one slash *)

Definition is_word_char (c : ascii) : bool :=
  let n := nat_of_ascii c in
  ((48 <=? n) && (n <=? 57))%nat || ((65 <=? n) && (n <=? 90))%nat
  || ((97 <=? n) && (n <=? 122))%nat || (n =? 95)%nat.

Definition is_digit (c : ascii) : bool :=
  let n := nat_of_ascii c in ((48 <=? n) && (n <=? 57))%nat.

Definition snoc (acc : string) (c : ascii) : string := acc ++ String c EmptyString.

(** One character read in [Code] mode. *)
Definition code (c : ascii) : list token * mode :=
  if Ascii.eqb c "'" then ([], Literal "")
  else if Ascii.eqb c "-" then ([], Dash)
  else if Ascii.eqb c "/" then ([], Slash)
  else if Ascii.eqb c ";" then ([TSemicolon], Code)
  else if PyStr.is_space c then ([], Code)
  else if is_word_char c then ([], Word (String c EmptyString))
  else ([TSymbol c], Code).

Definition after (t : token) (c : ascii) : list token * mode :=
  let (ts, m) := code c in (t :: ts, m).

Definition step (m : mode) (c : ascii) : list token * mode :=
  match m with
  | Code => code c
  | Word acc => if is_word_char c then ([], Word (snoc acc c)) else after (TWord acc) c
  | Literal acc => if Ascii.eqb c "'" then ([], LiteralQuote acc) else ([], Literal (snoc acc c))
  | LiteralQuote acc =>
      if Ascii.eqb c "'" then ([], Literal (snoc acc c)) else after (TLiteral acc) c
  | LineComment => if Ascii.eqb c "010" then ([], Code) else ([], LineComment)
  | BlockComment => if Ascii.eqb c "*" then ([], BlockStar) else ([], BlockComment)
  | BlockStar =>
      if Ascii.eqb c "/" then ([], Code)
      else if Ascii.eqb c "*" then ([], BlockStar) else ([], BlockComment)
  | Dash => if Ascii.eqb c "-" then ([], LineComment) else after (TSymbol "-") c
  | Slash => if Ascii.eqb c "*" then ([], BlockComment) else after (TSymbol "/") c
  end.

(** End of input: the parse failure, or the last token. *)
Definition finish (m : mode) : string + list token :=
  match m with
  | Code | LineComment => inr []
  | Word acc => inr [TWord acc]
  | LiteralQuote acc => inr [TLiteral acc]
  | Literal _ => inl "unterminated string literal"
  | BlockComment | BlockStar => inl "unterminated comment"
  | Dash => inr [TSymbol "-"]
  | Slash => inr [TSymbol "/"]
  end.

Fixpoint lex_from (m : mode) (s : string) : string + list token :=
  match s with
  | EmptyString => finish m
  | String c s' =>
      let (ts, m') := step m c in
      match lex_from m' s' with
      | inl failure => inl failure
      | inr rest => inr (ts ++ rest)%list
      end
  end.

Definition lex (sql : string) : string + list token := lex_from Code sql.

Definition upper_char (c : ascii) : ascii :=
  let n := nat_of_ascii c in
  if ((97 <=? n) && (n <=? 122))%nat then ascii_of_nat (n - 32) else c.

Fixpoint upper (s : string) : string :=
  match s with
  | EmptyString => EmptyString
  | String c s' => String (upper_char c) (upper s')
  end.

Definition mem (w : string) (l : list string) : bool := existsb (String.eqb w) l.

(** A statement terminator followed by a further token. *)
Fixpoint stacked (ts : list token) : bool :=
  match ts with
  | [] => false
  | TSemicolon :: (_ :: _) => true
  | _ :: rest => stacked rest
  end.

Definition is_select (ts : list token) : bool :=
  match ts with
  | TWord w :: _ => String.eqb (upper w) "SELECT"
  | _ => false
  end.

(** The data-definition and data-modification keywords of section 4.3. *)
Definition forbidden : list string :=
  ["INSERT"; "UPDATE"; "DELETE"; "DROP"; "ALTER"; "CREATE"; "TRUNCATE"; "ATTACH";
   "COPY"; "PRAGMA"].

(** The first forbidden keyword among the words of the statement. *)
Fixpoint forbidden_word (ts : list token) : option string :=
  match ts with
  | [] => None
  | TWord w :: rest => if mem (upper w) forbidden then Some (upper w) else forbidden_word rest
  | _ :: rest => forbidden_word rest
  end.

(** Words of the query language itself, which name no table or column. *)
Definition reserved : list string :=
  ["SELECT"; "FROM"; "WHERE"; "AS"; "AND"; "OR"; "NOT"; "NULL"; "IS"; "IN"; "LIKE";
   "BETWEEN"; "ORDER"; "GROUP"; "BY"; "HAVING"; "LIMIT"; "OFFSET"; "ASC"; "DESC";
   "DISTINCT"; "JOIN"; "INNER"; "LEFT"; "RIGHT"; "OUTER"; "ON"; "UNION"; "ALL";
   "CASE"; "WHEN"; "THEN"; "ELSE"; "END"; "COUNT"; "SUM"; "AVG"; "MIN"; "MAX"].

Definition is_number (w : string) : bool :=
  match w with String c _ => is_digit c | EmptyString => false end.

(** The first table or column name outside the allow-list; a name
    introduced by AS is an alias, not a reference. *)
Fixpoint unknown_identifier (allow : list string) (alias : bool) (ts : list token)
  : option string :=
  match ts with
  | [] => None
  | TWord w :: rest =>
      if alias || is_number w || mem (upper w) reserved || mem w allow
      then unknown_identifier allow (String.eqb (upper w) "AS") rest
      else Some w
  | _ :: rest => unknown_identifier allow false rest
  end.

(** The checks on a parsed statement, the structural one first. *)
Definition verdict (allow : list string) (ts : list token) : bool * option string :=
  if stacked ts then (false, Some "Multiple statements are not allowed")
  else match forbidden_word ts with
       | Some w => (false, Some ("Forbidden keyword: " ++ w))
       | None =>
           if negb (is_select ts) then (false, Some "Only a SELECT statement is allowed")
           else match unknown_identifier allow false ts with
                | Some w => (false, Some ("Table or column not allowed: " ++ w))
                | None => (true, None)
                end
       end.

(** [validate(sql) -> (is_safe, reason)], given the schema allow-list. *)
Definition validate (allow : list string) (sql : string) : bool * option string :=
  match lex sql with
  | inl failure => (false, Some ("Could not parse the query: " ++ failure))
  | inr ts => verdict allow ts
  end.





(** *** Texts described character by character *)













End SqlSafety.

(** The reason as section 6 of the specification words it: the text
    without its leading ["ERROR:"] marker, white space around it stripped.
    (The code computes [PyStr.strip (PyStr.replace sql_query "ERROR:" "")],
    see [generator_error].) *)
Definition reason_after_marker (sql_query : string) : string :=
  PyStr.strip (PyStr.drop 6 sql_query).

(** Whether the limit of the address was consulted (step 4). *)
Definition checked_ip_limit (t : list event) : bool :=
  existsb (fun e =>
    match e with
    | Ev c _ =>
        match c with
        | IPTracker_check_ip_limit _ | IPTracker_get_ip_remaining_requests _ => true
        | _ => false
        end
    end) t.

(** ** Worlds and requests used as examples *)

Definition a_request : request :=
  mk_request (Some "top scorer of 2019") None (Some "10.0.0.7, 10.0.0.1") None.

(** Quota left, a safe query, one row. *)
Definition world_fine : script :=
  mk_script (Ok 10) (Ok true) (Ok 3) (Ok "SELECT name FROM matches")
    (Ok (true, None)) (Ok [[("name", "x")]]).

(** The validator itself fails. *)
Definition world_validator_fault : script :=
  mk_script (Ok 10) (Ok true) (Ok 3) (Ok "SELECT name FROM matches")
    (Raise "boom") (Ok [[("name", "x")]]).

(** Both the global and the per-address quota are used up. *)
Definition world_exhausted : script :=
  mk_script (Ok 0) (Ok false) (Ok 0) (Ok "SELECT name FROM matches")
    (Ok (true, None)) (Ok [[("name", "x")]]).

(** The generator answers with an error text. *)
Definition world_generator_error (text : string) : script :=
  mk_script (Ok 10) (Ok true) (Ok 3) (Ok text) (Ok (true, None)) (Ok []).

(** The database fails with a given exception text. *)
Definition world_executor_fault (e : string) : script :=
  mk_script (Ok 10) (Ok true) (Ok 3) (Ok "SELECT name FROM matches")
    (Ok (true, None)) (Raise e).

(** The quota database fails at step 4. *)
Definition world_tracker_fault : script :=
  mk_script (Ok 10) (Raise "database is locked") (Ok 3) (Ok "SELECT name FROM matches")
    (Ok (true, None)) (Ok []).

(** The validator rejects a stacked query. *)
Definition world_rejecting : script :=
  mk_script (Ok 10) (Ok true) (Ok 3) (Ok "SELECT name FROM matches; DROP TABLE matches")
    (Ok (false, Some "Multiple statements are not allowed")) (Ok []).

(** The same, and the quota database fails when the remaining figure of
    the address is read. *)
Definition world_rejecting_tracker_fault : script :=
  mk_script (Ok 10) (Ok true) (Raise "database is locked")
    (Ok "SELECT name FROM matches; DROP TABLE matches")
    (Ok (false, Some "Multiple statements are not allowed")) (Ok []).

(** Rows are returned, and the quota database fails when the remaining
    figure of the address is read. *)
Definition world_fine_tracker_fault : script :=
  mk_script (Ok 10) (Ok true) (Raise "database is locked") (Ok "SELECT name FROM matches")
    (Ok (true, None)) (Ok [[("name", "x")]]).

(** The generator call fails. *)
Definition world_generator_fault : script :=
  mk_script (Ok 10) (Ok true) (Ok 3) (Raise "model timeout") (Ok (true, None)) (Ok []).

(** The address has used up its quota, the service has not. *)
Definition world_ip_exhausted : script :=
  mk_script (Ok 10) (Ok false) (Ok 0) (Ok "SELECT name FROM matches")
    (Ok (true, None)) (Ok []).

(** A request with a query and neither header nor transport address. *)
Definition request_without_address : request :=
  mk_request (Some "top scorer of 2019") None None None.

(** A request with neither form field nor JSON body. *)
Definition request_without_query : request :=
  mk_request None None (Some "10.0.0.7") None.

(** The schema allow-list of the examples of section 8. *)
Definition matches_schema : list string := ["matches"; "name"; "id"].

(** ** Serving a request *)

(** The endpoint served in a given world: the calls made and the response. *)
Definition serve {W} (h : handler W) (w : W) (system_prompt : string) (req : request)
  : run_result W response :=
  run h (process_query system_prompt req) w.

(** ** Further readings of a trace *)

(** Step 2 (lines 124-128, and again lines 310-314) as a value: the
    client address, or the text of the exception. *)
Definition client_address (req : request) : res string :=
  match x_forwarded_for req with
  | Some (String c f) => Ok (PyStr.strip (PyStr.split_head "," (String c f)))
  | _ =>
      match client_host req with
      | Some host => Ok host
      | None => Raise "'NoneType' object has no attribute 'host'"
      end
  end.

(** What the generator was asked: (user query, system prompt). *)
Definition generator_calls (t : list event) : list (string * string) :=
  flat_map (fun e =>
    match e with
    | Ev c _ =>
        match c with
        | sql_generator_get_sql_for_query q p => [(q, p)]
        | _ => []
        end
    end) t.

(** The addresses given to [IPTracker]. *)
Definition tracker_addresses (t : list event) : list string :=
  flat_map (fun e =>
    match e with
    | Ev c _ =>
        match c with
        | IPTracker_check_ip_limit ip | IPTracker_get_ip_remaining_requests ip
        | IPTracker_record_query_history ip _ _ _ => [ip]
        | _ => []
        end
    end) t.

(** The answers of [check_ip_limit]. *)
Definition ip_limit_answers (t : list event) : list (res bool) :=
  flat_map (fun e =>
    match e with
    | Ev c r =>
        match c in call X return res X -> list (res bool) with
        | IPTracker_check_ip_limit _ => fun r => [r]
        | _ => fun _ => []
        end r
    end) t.

(** What follows the first call of the executor. *)
Fixpoint since_execution (t : list event) : list event :=
  match t with
  | [] => []
  | e :: t' => if collaborator_eqb (called e) Executor then t' else since_execution t'
  end.

(** What was written to the log database:
    [LogManager.log_to_db(level, message, source, ip_address)]. *)
Definition db_logged (t : list event) : list (LogLevel * string * option string * string) :=
  flat_map (fun e =>
    match e with
    | Ev c _ =>
        match c with
        | LogManager_log_to_db lvl msg source ip => [(lvl, msg, source, ip)]
        | _ => []
        end
    end) t.

(** What comes before the first call to [who]. *)
Fixpoint before (who : collaborator) (t : list event) : list event :=
  match t with
  | [] => []
  | e :: t' => if collaborator_eqb (called e) who then [] else e :: before who t'
  end.

(** ** The endpoint [record_feedback] *)

Module Feedback.

(** The calls of [record_feedback] (lines 301-330). *)
Inductive call : Type -> Type :=
| logger_info (msg : string) : call unit
| logger_error (msg : string) : call unit
| FeedbackManager_record_feedback (client_ip user_query sql_query feedback_type : string)
  : call bool.

Inductive event : Type :=
| Ev {X : Type} (c : call X) (r : res X).

Definition handler (W : Type) : Type := forall X : Type, call X -> W -> W * res X.

(** What a call of the endpoint leaves: the world, the calls made, the
    answer. *)
Record result (W : Type) : Type := mk_result
  { world_after : W; calls : list event; answer : res response }.
Arguments mk_result {W}.
Arguments world_after {W}.
Arguments calls {W}.
Arguments answer {W}.

(** The [except] branch (lines 328-330), entered after the calls [t]. *)
Definition failed {W} (h : handler W) (e : string) (w : W) (t : list event)
    : result W :=
  let wr := h _ (logger_error ("Error processing feedback: " ++ e)) w in
  mk_result (fst wr)
    (t ++ [Ev (logger_error ("Error processing feedback: " ++ e)) (snd wr)])%list
    match snd wr with
    | Ok _ => Ok [("status", VStr "error"); ("message", VStr e)]
    | Raise e' => Raise e'
    end.

(** [record_feedback(request, user_query, sql_query, feedback_type)], state
    passed from call to call. *)
Definition record_feedback {W} (h : handler W) (w : W) (req : request)
  (user_query sql_query feedback_type : string)   : result W :=
  match client_address req with
  | Raise e => failed h e w []
  | Ok client_ip =>
      let info :=
        logger_info ("Feedback received from IP: " ++ client_ip ++ ", Type: "
                     ++ feedback_type) in
      let wr1 := h _ info w in
      match snd wr1 with
      | Raise e => failed h e (fst wr1) [Ev info (snd wr1)]
      | Ok _ =>
          let record :=
            FeedbackManager_record_feedback client_ip user_query sql_query feedback_type in
          let wr2 := h _ record (fst wr1) in
          match snd wr2 with
          | Raise e => failed h e (fst wr2) [Ev info (snd wr1); Ev record (snd wr2)]
          | Ok success =>
              mk_result (fst wr2) [Ev info (snd wr1); Ev record (snd wr2)]
                (Ok (if success
                     then [("status", VStr "success");
                           ("message", VStr "Feedback recorded successfully")]
                     else [("status", VStr "error");
                           ("message", VStr "Failed to record feedback")]))
          end
      end
  end.

(** What the feedback manager was given, with its answer. *)
Definition recorded (t : list event) : list (string * string * string * string * res bool) :=
  flat_map (fun e =>
    match e with
    | Ev c r =>
        match c in call X return res X -> list (string * string * string * string * res bool)
        with
        | FeedbackManager_record_feedback ip q sql ft => fun r => [(ip, q, sql, ft, r)]
        | _ => fun _ => []
        end r
    end) t.

(** A feedback manager that answers as told; logging returns. *)
Definition scripted (says : res bool) : handler unit :=
  fun X c w =>
    (w, match c in call X return res X with
        | logger_info _ | logger_error _ => Ok tt
        | FeedbackManager_record_feedback _ _ _ _ => says
        end).

End Feedback.

(** * Properties *)

(** ** String primitives on examples *)

Example strip_ex : PyStr.strip "  a b  " = "a b".
Proof. reflexivity. Qed.

Example replace_ex : PyStr.replace "xERROR:yERROR:" "ERROR:" "" = "xy".
Proof. reflexivity. Qed.

Example of_Z_ex : PyStr.of_Z (-12) = "-12" /\ PyStr.of_Z 0 = "0" /\ PyStr.of_nat 30 = "30".
Proof. repeat split; reflexivity. Qed.

(** ** Runs and behaviours *)

Lemma run_behaves {W A} (h : handler W) (p : prog A) (w : W) :
  behaves p (trace (run h p w)) (outcome (run h p w)).
Proof.
  revert w; induction p as [a | e | X c k IH]; intros w; simpl; auto.
  exists (snd (h X c w)), (trace (run h (k (snd (h X c w))) (fst (h X c w)))).
  split; [reflexivity | apply IH].
Qed.

(** ** The shape of a request *)

Lemma process_query_submitted system_prompt req user_query :
  submitted_query req = Some user_query ->
  process_query system_prompt req
  = try_catch (pipeline system_prompt req user_query) (catch_all req).
Proof.
  unfold submitted_query, process_query.
  destruct (form_user_query req), (json_user_query req); intros E; simplify_eq; reflexivity.
Qed.

Lemma process_query_no_query system_prompt req :
  submitted_query req = None ->
  process_query system_prompt req
  = (perform (logger_error "No query provided in request");;
     mret [("error", VStr msg_no_query)]).
Proof.
  unfold submitted_query, process_query.
  destruct (form_user_query req), (json_user_query req); intros E; simplify_eq; reflexivity.
Qed.

(** Resolving the client address makes no call. *)
Lemma client_ip_of_cases req :
  (exists ip, client_ip_of req = Ret ip) \/ (exists e, client_ip_of req = Throw e).
Proof.
  unfold client_ip_of.
  destruct (x_forwarded_for req) as [[|c f]|], (client_host req); eauto.
Qed.

(** ** Tactics: the paths of the endpoint *)

Ltac unfold_endpoint H :=
  unfold pipeline, catch_all, execution, validation, generator_error,
    generate, check_and_admit, remaining_requests, perform,
    mbind, mret, prog_bind, prog_ret in H.

Ltac read_trace_in H :=
  cbn [only_raise never_calls generated validated executed recorded
       first_global_remaining logged checked_ip_limit forallb flat_map app raised
       called callee collaborator_eqb existsb negb orb andb In] in H.

Ltac read_trace :=
  repeat match goal with
         | Hx : context [Ev _ _ :: _] |- _ => progress read_trace_in Hx
         | Hx : context [negb _ || _] |- _ => progress read_trace_in Hx
         end;
  simplify_eq;
  try match goal with
      | Hb : (?a <=? 0) = false, Hle : ?a <= 0 |- _ => apply Z.leb_gt in Hb; lia
      end.

(** One step along a behaviour: the next call and its outcome, or the
    next branch of the program. *)
Ltac step H :=
  cbn [behaves bind try_catch] in H;
  match type of H with
  | ex _ => let r := fresh "r" in let t := fresh "t" in
            destruct H as (r & t & -> & H)
  | _ /\ _ => destruct H as [? ?]
  | context [client_ip_of ?req] =>
      let ip := fresh "ip" in let e := fresh "e" in let E := fresh "E" in
      destruct (client_ip_of_cases req) as [[ip E] | [e E]]; rewrite E in H; clear E
  | context [match ?r with Ok _ => _ | Raise _ => _ end] => destruct r
  | context [if ?b then _ else _] => destruct b eqn:?
  | context [match ?o with Some _ => _ | None => _ end] => destruct o
  | context [let (_, _) := ?p in _] => destruct p
  end;
  read_trace.

Ltac paths H := unfold_endpoint H; repeat step H.

Ltac read_goal :=
  cbn [only_raise never_calls generated validated executed recorded
       first_global_remaining logged checked_ip_limit forallb flat_map app raised
       called callee collaborator_eqb existsb negb orb andb In].

(** The behaviour of a served request, by the query it carries, ready for
    [paths]. *)
Ltac served H Q :=
  match goal with
  | |- context [serve ?h ?w ?p ?req] =>
      pose proof (run_behaves h (process_query p req) w) as H;
      unfold serve in *;
      destruct (run h (process_query p req) w) as [? ? ?];
      cbn [trace outcome final] in *;
      destruct (submitted_query req) as [?|] eqn:Q;
      [ rewrite (process_query_submitted _ _ _ Q) in H
      | rewrite (process_query_no_query _ _ Q) in H ]
  end.

(** ** The generator's error token (step 6) *)

(** C5.  When the generator of an admitted request answers with a text
    that starts with the error token, neither the validator nor the
    executor is called; and, the other collaborators returning normally,
    one failed history entry is recorded for that text and the response
    carries the text and the error drawn from it. *)
Theorem generator_error_skips_validation_and_execution :
  forall W (h : handler W) (w : W) (system_prompt : string) (req : request)
         (sql_query : string),
    generated (trace (serve h w system_prompt req)) = [Ok sql_query] ->
    PyStr.startswith sql_query "ERROR:" = true ->
    never_calls Validator (trace (serve h w system_prompt req)) = true
    /\ never_calls Executor (trace (serve h w system_prompt req)) = true
    /\ (only_raise [] (trace (serve h w system_prompt req)) = true ->
        exists ip user_query remaining,
          recorded (trace (serve h w system_prompt req))
          = [mk_attempt ip user_query sql_query false]
          /\ submitted_query req = Some user_query
          /\ outcome (serve h w system_prompt req)
             = Ok [("sql_query", VStr sql_query);
                   ("error", VStr (PyStr.strip (PyStr.replace sql_query "ERROR:" "")));
                   ("remaining_requests", remaining)]).
Proof.
  intros W h w system_prompt req sql_query Hg Hs.
  served H Q; paths H; read_goal; repeat split; auto; intros Hr; read_trace_in Hr;
    try discriminate; eauto 10.
Qed.

Lemma generator_error_witness :
  never_calls Validator
    (trace (serve (scripted (world_generator_error "ERROR: no such table")) tt
              "PROMPT" a_request)) = true
  /\ never_calls Executor
       (trace (serve (scripted (world_generator_error "ERROR: no such table")) tt
                 "PROMPT" a_request)) = true
  /\ exists ip user_query remaining,
      recorded (trace (serve (scripted (world_generator_error "ERROR: no such table")) tt
                         "PROMPT" a_request))
      = [mk_attempt ip user_query "ERROR: no such table" false]
      /\ submitted_query a_request = Some user_query
      /\ outcome (serve (scripted (world_generator_error "ERROR: no such table")) tt
                    "PROMPT" a_request)
         = Ok [("sql_query", VStr "ERROR: no such table");
               ("error", VStr (PyStr.strip (PyStr.replace "ERROR: no such table" "ERROR:" "")));
               ("remaining_requests", remaining)].
Proof.
  destruct (generator_error_skips_validation_and_execution unit
              (scripted (world_generator_error "ERROR: no such table")) tt
              "PROMPT" a_request "ERROR: no such table" eq_refl eq_refl) as (Hv & He & Hr).
  split; [exact Hv | split; [exact He | exact (Hr eq_refl)]].
Defined.

(** ** A fault of the validator (step 6.5) *)

(** C1, as the code has it.  When the validator raises while it validates
    the generated query, the fault is logged and the request goes on to
    the executor with that query: the loggers, the log database and the
    rate limiter returning normally, the response is the one of step 7,
    the result of the query or the generic execution failure. *)
Theorem validator_fault_continues_to_execution :
  forall W (h : handler W) (w : W) (system_prompt : string) (req : request)
         (sql_query e : string),
    validated (trace (serve h w system_prompt req)) = [(sql_query, Raise e)] ->
    only_raise [Validator; Executor] (trace (serve h w system_prompt req)) = true ->
    In ("Error during SQL validation step: " ++ e)
       (logged (trace (serve h w system_prompt req)))
    /\ exists answer remaining,
        executed (trace (serve h w system_prompt req)) = [(sql_query, answer)]
        /\ outcome (serve h w system_prompt req)
           = Ok [("sql_query", VStr sql_query);
                 match answer with
                 | Ok json_result => ("result", VRows json_result)
                 | Raise _ => ("error", VStr msg_execution_failed)
                 end;
                 ("remaining_requests", remaining)].
Proof.
  intros W h w system_prompt req sql_query e Hv Hr.
  served H Q; paths H; read_goal; try discriminate; split; eauto 10.
Qed.

Lemma validator_fault_witness :
  exists answer remaining,
    executed (trace (serve (scripted world_validator_fault) tt "PROMPT" a_request))
    = [("SELECT name FROM matches", answer)]
    /\ outcome (serve (scripted world_validator_fault) tt "PROMPT" a_request)
       = Ok [("sql_query", VStr "SELECT name FROM matches");
             match answer with
             | Ok json_result => ("result", VRows json_result)
             | Raise _ => ("error", VStr msg_execution_failed)
             end;
             ("remaining_requests", remaining)].
Proof.
  exact (proj2 (validator_fault_continues_to_execution unit
                  (scripted world_validator_fault) tt "PROMPT" a_request
                  "SELECT name FROM matches" "boom" eq_refl eq_refl)).
Defined.

(** C1 as stated fails: in a world whose validator raises, the executor
    is called with the unvalidated query and its rows are returned. *)
Lemma validator_fault_is_not_a_rejection :
  validated (trace (serve (scripted world_validator_fault) tt "PROMPT" a_request))
  = [("SELECT name FROM matches", Raise "boom")]
  /\ executed (trace (serve (scripted world_validator_fault) tt "PROMPT" a_request))
     = [("SELECT name FROM matches", Ok [[("name", "x")]])]
  /\ outcome (serve (scripted world_validator_fault) tt "PROMPT" a_request)
     = Ok [("sql_query", VStr "SELECT name FROM matches");
           ("result", VRows [[("name", "x")]]);
           ("remaining_requests",
            VDict [("user_remaining", VInt 3); ("global_remaining", VInt 10)])].
Proof. repeat split. Qed.

(** ** The history of failed requests *)

(** C2, as the code has it.  For a request answered with an error while
    the loggers, the log database and the rate limiter return normally:
    when the generator returned a query text, exactly one history entry
    is recorded, for that text and tagged as failed; when the generator
    call raised, no history entry is recorded and the log database
    receives one entry, the generation error with the exception text;
    when the request did not reach the generator, no history entry is
    recorded, and a request rejected at admission (by the global limit or
    by the limit of the address) leaves one entry in the log database,
    the warning of that limit. *)
Theorem failed_attempt_history :
  forall W (h : handler W) (w : W) (system_prompt : string) (req : request)
         (resp : response) (message : value),
    only_raise [Generator; Validator; Executor]
      (trace (serve h w system_prompt req)) = true ->
    outcome (serve h w system_prompt req) = Ok resp ->
    field "error" resp = Some message ->
    match generated (trace (serve h w system_prompt req)) with
    | [Ok sql_query] =>
        exists ip user_query,
          recorded (trace (serve h w system_prompt req))
          = [mk_attempt ip user_query sql_query false]
    | [Raise e] =>
        recorded (trace (serve h w system_prompt req)) = []
        /\ exists ip,
            db_logged (trace (serve h w system_prompt req))
            = [(ERROR, "Failed to generate SQL: " ++ e, Some "SQL generation", ip)]
    | _ =>
        recorded (trace (serve h w system_prompt req)) = []
        /\ (forall global_remaining,
              first_global_remaining (trace (serve h w system_prompt req))
              = Some (Ok global_remaining) ->
              global_remaining <= 0 ->
              exists ip,
                db_logged (trace (serve h w system_prompt req))
                = [(WARNING, "Global daily limit reached", None, ip)])
        /\ (ip_limit_answers (trace (serve h w system_prompt req)) = [Ok false] ->
            exists ip,
              db_logged (trace (serve h w system_prompt req))
              = [(WARNING, "IP exceeded request limit: " ++ ip, None, ip)])
    end.
Proof.
  intros W h w system_prompt req resp message Hr Ho Hf.
  served H Q; paths H; read_goal;
    cbn [db_logged ip_limit_answers first_global_remaining flat_map app];
    try discriminate; eauto;
    try (cbn [field String.eqb Ascii.eqb Bool.eqb] in Hf; discriminate).
  all: repeat split; intros; simplify_eq; eauto;
    try match goal with
        | Hb : (?a <=? 0) = false, Hle : ?a <= 0 |- _ => apply Z.leb_gt in Hb; lia
        end.
Qed.

Lemma failed_attempt_history_witness :
  exists ip user_query,
    recorded (trace (serve (scripted (world_executor_fault "no such column")) tt
                       "PROMPT" a_request))
    = [mk_attempt ip user_query "SELECT name FROM matches" false].
Proof.
  exact (failed_attempt_history unit (scripted (world_executor_fault "no such column")) tt
           "PROMPT" a_request _ (VStr msg_execution_failed) eq_refl eq_refl eq_refl).
Defined.

(** C2 as stated fails: a request rejected because the global limit is
    reached is answered with an error and leaves no history entry. *)
Lemma admission_rejection_leaves_no_history :
  outcome (serve (scripted world_exhausted) tt "PROMPT" a_request)
  = Ok [("error", VStr msg_global_limit)]
  /\ recorded (trace (serve (scripted world_exhausted) tt "PROMPT" a_request)) = [].
Proof. split; reflexivity. Qed.

(** ** Admission (steps 3 and 4) *)

Lemma msg_ip_limit_is_not_global n : msg_global_limit <> msg_ip_limit n.
Proof. unfold msg_global_limit, msg_ip_limit. cbn [String.append]. discriminate. Qed.

(** C3.  The global figure is read first: when it is zero (or below), the
    limit of the address is not consulted and the response is never the
    per-address rejection, whatever quota the address has left; the
    loggers and the log database returning normally, the response is the
    global-limit rejection. *)
Theorem global_limit_takes_precedence :
  forall W (h : handler W) (w : W) (system_prompt : string) (req : request)
         (global_remaining : Z),
    first_global_remaining (trace (serve h w system_prompt req))
    = Some (Ok global_remaining) ->
    global_remaining <= 0 ->
    checked_ip_limit (trace (serve h w system_prompt req)) = false
    /\ (forall ip_remaining,
          outcome (serve h w system_prompt req)
          <> Ok [("error", VStr (msg_ip_limit ip_remaining))])
    /\ (only_raise [] (trace (serve h w system_prompt req)) = true ->
        outcome (serve h w system_prompt req) = Ok [("error", VStr msg_global_limit)]).
Proof.
  intros W h w system_prompt req global_remaining Hg Hle.
  served H Q; paths H; read_goal; try discriminate;
    (split; [reflexivity | split; [intros n Hn | intros Hr; read_trace_in Hr]]);
    try discriminate; try reflexivity.
  all: simplify_eq; eapply msg_ip_limit_is_not_global; eauto.
Qed.

Lemma global_limit_takes_precedence_witness :
  outcome (serve (scripted world_exhausted) tt "PROMPT" a_request)
  = Ok [("error", VStr msg_global_limit)].
Proof.
  apply (global_limit_takes_precedence unit (scripted world_exhausted) tt
           "PROMPT" a_request 0 eq_refl); [lia | reflexivity].
Defined.

(** ** Failure of the executor (step 7) *)




(** ** The shape of a response *)

Ltac read_response :=
  cbn [field full_shape String.eqb Ascii.eqb Bool.eqb andb orb].

(** C8, as the code has it.  While the loggers, the log database and the
    rate limiter return normally, every request is answered with a
    dictionary.  When the generator returned a query text the dictionary
    holds [sql_query] (that text), [result] or [error], and
    [remaining_requests] with both figures.  When the generator call
    raised it holds [error] and [remaining_requests] only.  Otherwise
    (rejected at admission, no query, no client address) it holds
    [error], and neither [sql_query] nor [remaining_requests]. *)
Theorem response_shape :
  forall W (h : handler W) (w : W) (system_prompt : string) (req : request),
    only_raise [Generator; Validator; Executor]
      (trace (serve h w system_prompt req)) = true ->
    exists resp,
      outcome (serve h w system_prompt req) = Ok resp
      /\ match generated (trace (serve h w system_prompt req)) with
         | [Ok sql_query] =>
             full_shape resp = true /\ field "sql_query" resp = Some (VStr sql_query)
         | [Raise _] =>
             exists remaining,
               resp = [("error", VStr msg_try_later); ("remaining_requests", remaining)]
         | _ =>
             field "sql_query" resp = None
             /\ field "remaining_requests" resp = None
             /\ exists message, field "error" resp = Some (VStr message)
         end.
Proof.
  intros W h w system_prompt req Hr.
  served H Q; paths H; read_goal; try discriminate;
    (eexists; split; [reflexivity | read_response; eauto 10]).
Qed.

Lemma response_shape_witness :
  exists resp,
    outcome (serve (scripted world_fine) tt "PROMPT" a_request) = Ok resp
    /\ full_shape resp = true
    /\ field "sql_query" resp = Some (VStr "SELECT name FROM matches").
Proof.
  exact (response_shape unit (scripted world_fine) tt "PROMPT" a_request eq_refl).
Defined.

(** C8 as stated fails: the response to a request rejected at admission
    holds an [error] field only. *)
Lemma admission_rejection_has_no_quota_figures :
  outcome (serve (scripted world_exhausted) tt "PROMPT" a_request)
  = Ok [("error", VStr msg_global_limit)]
  /\ full_shape [("error", VStr msg_global_limit)] = false
  /\ field "sql_query" [("error", VStr msg_global_limit)] = None
  /\ field "remaining_requests" [("error", VStr msg_global_limit)] = None.
Proof. repeat split. Qed.

(** ** The catch-all handler (lines 280-291) *)

Lemma run_try_catch {W A} (h : handler W) (m : prog A) (f : string -> prog A) (w : W) :
  run h (try_catch m f) w
  = match outcome (run h m w) with
    | Ok _ => run h m w
    | Raise e =>
        mk_run (final (run h (f e) (final (run h m w))))
          (trace (run h m w) ++ trace (run h (f e) (final (run h m w))))
          (outcome (run h (f e) (final (run h m w))))
    end.
Proof.
  revert w; induction m as [a | e | X c k IH]; intros w; cbn [try_catch run].
  - reflexivity.
  - cbn. destruct (run h (f e) w); reflexivity.
  - rewrite IH. cbn [outcome].
    destruct (outcome (run h (k (snd (h X c w))) (fst (h X c w)))) eqn:E;
      cbn [final trace outcome]; rewrite ?E; reflexivity.
Qed.

(** C10.  When an exception escapes the stages of the pipeline, and the
    two logging calls of the catch-all handler return normally, the
    response holds the fixed error message and, under [details], the text
    of the exception as it is. *)
Theorem catch_all_exposes_exception_text :
  forall W (h : handler W) (w : W) (system_prompt : string) (req : request)
         (user_query e : string),
    submitted_query req = Some user_query ->
    outcome (run h (pipeline system_prompt req user_query) w) = Raise e ->
    only_raise []
      (trace (run h (catch_all req e)
                (final (run h (pipeline system_prompt req user_query) w)))) = true ->
    outcome (serve h w system_prompt req)
    = Ok [("error", VStr msg_invalid_format); ("details", VStr e)].
Proof.
  intros W h w system_prompt req user_query e Q Hout Hr.
  unfold serve. rewrite (process_query_submitted _ _ _ Q), run_try_catch, Hout.
  cbn [outcome].
  pose proof (run_behaves h (catch_all req e)
                (final (run h (pipeline system_prompt req user_query) w))) as H.
  destruct (run h (catch_all req e) _) as [? ? ?]; cbn [trace outcome final] in *.
  paths H; try discriminate; reflexivity.
Qed.

Lemma catch_all_exposes_exception_text_witness :
  outcome (serve (scripted world_tracker_fault) tt "PROMPT" a_request)
  = Ok [("error", VStr msg_invalid_format); ("details", VStr "database is locked")].
Proof.
  apply (catch_all_exposes_exception_text unit (scripted world_tracker_fault) tt
           "PROMPT" a_request "top scorer of 2019" "database is locked");
    reflexivity.
Defined.

(** ** The error text of the generator (line 182) *)

Lemma replace_without_occurrence old s :
  PyStr.contains old s = false -> PyStr.replace_from 0 old "" s = s.
Proof.
  induction s as [|c s IH]; cbn [PyStr.contains PyStr.replace_from]; [reflexivity|].
  intros H. apply orb_false_iff in H as [Hp Hc].
  rewrite Hp, IH by assumption. reflexivity.
Qed.

Lemma startswith_split s p :
  PyStr.startswith s p = true -> s = p ++ PyStr.drop (String.length p) s.
Proof.
  unfold PyStr.startswith. revert s.
  induction p as [|c p IH]; intros s; [reflexivity|].
  destruct s as [|d s]; cbn [String.prefix]; [discriminate|].
  destruct (Ascii.ascii_dec c d) as [->|]; [|discriminate].
  intros H. cbn [String.length PyStr.drop].
  change (String d s = String d (p ++ PyStr.drop (String.length p) s)).
  f_equal. apply IH, H.
Qed.

Lemma replace_leading_marker rest :
  PyStr.replace_from 0 "ERROR:" "" ("ERROR:" ++ rest)
  = PyStr.replace_from 0 "ERROR:" "" rest.
Proof.
  assert (P : String.prefix "ERROR:" ("ERROR:" ++ rest) = true)
    by (destruct rest; reflexivity).
  change ("ERROR:" ++ rest)
    with (String "E" (String "R" (String "R" (String "O" (String "R" (String ":" rest))))))
    in *.
  cbn [PyStr.replace_from]. rewrite P. reflexivity.
Qed.

(** Where the code and C6 agree: on an error text in which the marker
    does not occur again, the reason is the text without its leading
    marker, stripped. *)
Lemma error_reason_single_marker sql_query :
  PyStr.startswith sql_query "ERROR:" = true ->
  PyStr.contains "ERROR:" (PyStr.drop 6 sql_query) = false ->
  PyStr.strip (PyStr.replace sql_query "ERROR:" "") = reason_after_marker sql_query.
Proof.
  intros Hs Hc. unfold reason_after_marker, PyStr.replace.
  pose proof (startswith_split _ _ Hs) as E.
  change (String.length "ERROR:") with 6%nat in E.
  remember (PyStr.drop 6 sql_query) as rest eqn:R. clear R Hs. subst sql_query.
  rewrite replace_leading_marker, (replace_without_occurrence _ _ Hc). reflexivity.
Qed.

(** C6 fails on the code.  The generator answers
    ["ERROR: no such table ERROR: retry"]; the response carries the reason
    ["no such table  retry"], where C6 asks for
    ["no such table ERROR: retry"]: [replace] removed the second marker
    too. *)
Theorem error_reason_loses_later_markers :
  outcome (serve (scripted (world_generator_error "ERROR: no such table ERROR: retry")) tt
             "PROMPT" a_request)
  = Ok [("sql_query", VStr "ERROR: no such table ERROR: retry");
        ("error", VStr "no such table  retry");
        ("remaining_requests",
         VDict [("user_remaining", VInt 3); ("global_remaining", VInt 10)])]
  /\ reason_after_marker "ERROR: no such table ERROR: retry" = "no such table ERROR: retry".
Proof. split; reflexivity. Qed.

(** ** The SQL safety validator *)

Section Validator.

Import SqlSafety.












(** *** Texts without literals and comments *)



Lemma code_space c : PyStr.is_space c = true -> code c = ([], Code).
Proof.
  destruct c as [b0 b1 b2 b3 b4 b5 b6 b7].
  destruct b0, b1, b2, b3, b4, b5, b6, b7; intros H;
    first [ discriminate H | reflexivity ].
Qed.











(** *** Words *)










(** *** Comments *)








(** *** String literals *)









(** *** Verdicts on texts *)







End Validator.


(** The examples of section 8 of the specification. *)
Example validate_examples :
  SqlSafety.validate matches_schema "SELECT name FROM matches WHERE id=1" = (true, None)
  /\ SqlSafety.validate matches_schema "DELETE FROM matches"
     = (false, Some "Forbidden keyword: DELETE")
  /\ SqlSafety.validate matches_schema "SELECT secret FROM users"
     = (false, Some "Table or column not allowed: secret")
  /\ SqlSafety.validate matches_schema "/* DELETE */select name from matches" = (true, None)
  /\ SqlSafety.validate matches_schema "select name from matches where name = 'x"
     = (false, Some "Could not parse the query: unterminated string literal").
Proof. repeat split. Qed.

(** * Further properties of the endpoints *)

(** ** Reading a trace call by call *)

Lemma only_raise_nil who : only_raise who [] = true.
Proof. reflexivity. Qed.

Lemma only_raise_cons who e t :
  only_raise who (e :: t)
  = (negb (raised e) || existsb (collaborator_eqb (called e)) who) && only_raise who t.
Proof. reflexivity. Qed.

Lemma never_calls_nil who : never_calls who [] = true.
Proof. reflexivity. Qed.

Lemma never_calls_cons who e t :
  never_calls who (e :: t) = negb (collaborator_eqb (called e) who) && never_calls who t.
Proof. reflexivity. Qed.

Lemma generated_nil : generated [] = [].
Proof. reflexivity. Qed.

Lemma generated_cons X (c : call X) r t :
  generated (Ev c r :: t)
  = (match c in call X return res X -> list (res string) with
     | sql_generator_get_sql_for_query _ _ => fun r => [r]
     | _ => fun _ => []
     end r ++ generated t)%list.
Proof. reflexivity. Qed.

Lemma generator_calls_nil : generator_calls [] = [].
Proof. reflexivity. Qed.

Lemma generator_calls_cons X (c : call X) (r : res X) t :
  generator_calls (Ev c r :: t)
  = (match c with
     | sql_generator_get_sql_for_query q p => [(q, p)]
     | _ => []
     end ++ generator_calls t)%list.
Proof. reflexivity. Qed.

Lemma validated_nil : validated [] = [].
Proof. reflexivity. Qed.

Lemma validated_cons X (c : call X) r t :
  validated (Ev c r :: t)
  = (match c in call X return res X -> list (string * res (bool * option string)) with
     | SQLValidator_validate sql => fun r => [(sql, r)]
     | _ => fun _ => []
     end r ++ validated t)%list.
Proof. reflexivity. Qed.

Lemma executed_nil : executed [] = [].
Proof. reflexivity. Qed.

Lemma executed_cons X (c : call X) r t :
  executed (Ev c r :: t)
  = (match c in call X return res X -> list (string * res rows) with
     | sql_generator_fetch_data sql => fun r => [(sql, r)]
     | _ => fun _ => []
     end r ++ executed t)%list.
Proof. reflexivity. Qed.

Lemma recorded_nil : recorded [] = [].
Proof. reflexivity. Qed.

Lemma recorded_cons X (c : call X) (r : res X) t :
  recorded (Ev c r :: t)
  = (match c with
     | IPTracker_record_query_history ip q sql ok => [mk_attempt ip q sql ok]
     | _ => []
     end ++ recorded t)%list.
Proof. reflexivity. Qed.

Lemma tracker_addresses_nil : tracker_addresses [] = [].
Proof. reflexivity. Qed.

Lemma tracker_addresses_cons X (c : call X) (r : res X) t :
  tracker_addresses (Ev c r :: t)
  = (match c with
     | IPTracker_check_ip_limit ip | IPTracker_get_ip_remaining_requests ip
     | IPTracker_record_query_history ip _ _ _ => [ip]
     | _ => []
     end ++ tracker_addresses t)%list.
Proof. reflexivity. Qed.

Lemma ip_limit_answers_nil : ip_limit_answers [] = [].
Proof. reflexivity. Qed.

Lemma ip_limit_answers_cons X (c : call X) r t :
  ip_limit_answers (Ev c r :: t)
  = (match c in call X return res X -> list (res bool) with
     | IPTracker_check_ip_limit _ => fun r => [r]
     | _ => fun _ => []
     end r ++ ip_limit_answers t)%list.
Proof. reflexivity. Qed.

Lemma first_global_remaining_cons X (c : call X) r t :
  first_global_remaining (Ev c r :: t)
  = match c in call X return res X -> option (res Z) with
    | IPTracker_get_global_remaining_requests => fun r => Some r
    | _ => fun _ => first_global_remaining t
    end r.
Proof. reflexivity. Qed.

Lemma since_execution_cons e t :
  since_execution (e :: t)
  = if collaborator_eqb (called e) Executor then t else since_execution t.
Proof. reflexivity. Qed.

Ltac read_calls_in H :=
  rewrite ?only_raise_cons, ?never_calls_cons, ?generated_cons, ?generator_calls_cons,
    ?validated_cons, ?executed_cons, ?recorded_cons, ?tracker_addresses_cons,
    ?ip_limit_answers_cons, ?first_global_remaining_cons, ?since_execution_cons,
    ?only_raise_nil, ?never_calls_nil, ?generated_nil, ?generator_calls_nil,
    ?validated_nil, ?executed_nil, ?recorded_nil, ?tracker_addresses_nil,
    ?ip_limit_answers_nil in H;
  cbn [app negb raised called callee collaborator_eqb existsb orb andb] in H;
  cbn [negb orb andb] in H.

Ltac read_calls_goal :=
  rewrite ?only_raise_cons, ?never_calls_cons, ?generated_cons, ?generator_calls_cons,
    ?validated_cons, ?executed_cons, ?recorded_cons, ?tracker_addresses_cons,
    ?ip_limit_answers_cons, ?first_global_remaining_cons, ?since_execution_cons,
    ?only_raise_nil, ?never_calls_nil, ?generated_nil, ?generator_calls_nil,
    ?validated_nil, ?executed_nil, ?recorded_nil, ?tracker_addresses_nil,
    ?ip_limit_answers_nil;
  cbn [app negb raised called callee collaborator_eqb existsb orb andb];
  cbn [negb orb andb].

Ltac read_hyps :=
  repeat match goal with
         | Hx : context [Ev _ _ :: _] |- _ => progress read_calls_in Hx
         | Hx : context [_ && _] |- _ => progress cbn [negb orb andb] in Hx
         end.

Ltac read_all_hyps :=
  repeat match goal with
         | Hx : _ |- _ => progress read_calls_in Hx
         end.

(** A trace that is known call by call. *)
Ltac read_closed :=
  cbn [only_raise never_calls generated generator_calls validated executed recorded
       tracker_addresses ip_limit_answers since_execution first_global_remaining
       logged checked_ip_limit forallb flat_map app raised called callee
       collaborator_eqb existsb negb orb andb In].

Lemma client_ip_of_address req :
  client_ip_of req
  = match client_address req with Ok ip => Ret ip | Raise e => Throw e end.
Proof.
  unfold client_ip_of, client_address.
  destruct (x_forwarded_for req) as [[|c f]|], (client_host req); reflexivity.
Qed.

(** One step along a behaviour, the readings kept folded. *)
Ltac walk H :=
  cbn [behaves bind try_catch] in H;
  match type of H with
  | behaves (catch_all _ _) _ _ =>
      unfold catch_all, perform, mbind, mret, prog_bind, prog_ret in H
  | ex _ => let r := fresh "r" in let t := fresh "t" in
            destruct H as (r & t & -> & H)
  | _ /\ _ => destruct H as [? ?]; simplify_eq; read_all_hyps
  | context [client_ip_of ?req] =>
      let ip := fresh "ip" in let e := fresh "e" in
      rewrite (client_ip_of_address req) in H;
      destruct (client_address req) as [ip | e] eqn:?
  | context [match ?r with Ok _ => _ | Raise _ => _ end] => destruct r
  | context [if ?b then _ else _] => destruct b eqn:?
  | context [match ?o with Some _ => _ | None => _ end] => destruct o
  | context [let (_, _) := ?p in _] => destruct p
  end;
  read_hyps; simplify_eq;
  try match goal with
      | Hb : (?a <=? 0) = false, Hle : ?a <= 0 |- _ => apply Z.leb_gt in Hb; lia
      end.

(** ** Step 7 on its own *)

(** Every behaviour of step 7 under the catch-all handler: the executor
    is called first and once; what follows calls neither the generator,
    the validator nor the executor, and uses the address it was given. *)
Lemma execution_summary req ip q sql t out :
  behaves (try_catch (execution ip q sql) (catch_all req)) t out ->
  exists a t',
    t = Ev (sql_generator_fetch_data sql) a :: t'
    /\ generator_calls t' = [] /\ generated t' = [] /\ validated t' = []
    /\ executed t' = [] /\ ip_limit_answers t' = []
    /\ Forall (eq ip) (tracker_addresses t')
    /\ recorded t'
       = match a with
         | Ok _ => if only_raise [] t'
                   then [mk_attempt ip q sql true]
                   else [mk_attempt ip q sql true; mk_attempt ip q sql false]
         | Raise _ => [mk_attempt ip q sql false]
         end
    /\ (only_raise [] t' = true ->
        exists u g,
          match a with
          | Ok json_result =>
              t' = [Ev (IPTracker_record_query_history ip q sql true) (Ok tt);
                    Ev (logger_info ("Query executed successfully with "
                                     ++ PyStr.of_nat (List.length json_result)
                                     ++ " results (numeric values rounded to 2 decimal places)"))
                       (Ok tt);
                    Ev (LogManager_log_app_activity INFO
                          ("Successful query from " ++ ip ++ ": "
                           ++ PyStr.take 50 q ++ "...")) (Ok tt);
                    Ev (IPTracker_get_ip_remaining_requests ip) (Ok u);
                    Ev IPTracker_get_global_remaining_requests (Ok g)]
              /\ out = Ok [("sql_query", VStr sql); ("result", VRows json_result);
                          ("remaining_requests",
                           VDict [("user_remaining", VInt u);
                                  ("global_remaining", VInt g)])]
          | Raise e =>
              t' = [Ev (IPTracker_record_query_history ip q sql false) (Ok tt);
                    Ev (logger_error ("Error executing query: " ++ e)) (Ok tt);
                    Ev (LogManager_log_to_db ERROR ("Error executing query: " ++ e)
                          (Some "SQL execution") ip) (Ok tt);
                    Ev (IPTracker_get_ip_remaining_requests ip) (Ok u);
                    Ev IPTracker_get_global_remaining_requests (Ok g)]
              /\ out = Ok [("sql_query", VStr sql); ("error", VStr msg_execution_failed);
                          ("remaining_requests",
                           VDict [("user_remaining", VInt u);
                                  ("global_remaining", VInt g)])]
          end)
    /\ (only_raise [] t' = false ->
        forall resp, out = Ok resp -> field "result" resp = None)
    /\ (only_raise [RateLimiter; Generator; Validator; Executor] t' = true ->
        exists resp, out = Ok resp
                     /\ (field "result" resp = None <-> field "error" resp <> None)).
Proof.
  intros H. unfold execution, remaining_requests, perform, mbind, mret, prog_bind, prog_ret in H.
  cbn [behaves bind try_catch] in H. destruct H as (a & t' & -> & H).
  exists a, t'. split; [reflexivity|].
  pattern a, t', out.
  match goal with |- ?P _ _ _ => set (facts := P) end.
  repeat walk H.
  all: subst facts; cbn beta; read_closed.
  all: repeat match goal with |- _ /\ _ => split end.
  all: try reflexivity; try discriminate; try (repeat constructor; fail).
  all: intros _; repeat match goal with u : unit |- _ => destruct u end.
  all: try (do 2 eexists; split; reflexivity).
  all: try (eexists; split; [reflexivity|]; read_response; split; [discriminate | reflexivity]).
  all: try (eexists; split; [reflexivity|]; read_response; split; congruence).
  all: intros resp Hresp; simplify_eq; reflexivity.
Qed.

(** ** Walking the pipeline up to step 7 *)

(** The behaviour of a served request, the stages unfolded up to step 7. *)
Ltac served_upto_execution H Q :=
  served H Q;
  unfold pipeline, validation, generator_error, generate, check_and_admit,
    remaining_requests, perform, mbind, mret, prog_bind, prog_ret in H;
  let claim := fresh "claim" in
  lazymatch type of H with
  | behaves _ ?t ?o =>
      pattern t, o;
      lazymatch goal with |- ?P _ _ => set (claim := P) end
  end;
  repeat walk H;
  try (cbn [behaves bind try_catch] in H);
  subst claim; cbn beta.

(** Where a walk stops at step 7: what [execution_summary] says of the
    rest of the trace. *)
Ltac meet_execution H :=
  cbn [behaves bind try_catch] in H;
  lazymatch type of H with
  | behaves (try_catch (execution _ _ _) (catch_all _)) _ _ =>
      let a := fresh "answer" in
      let t' := fresh "rest" in
      apply execution_summary in H;
      destruct H as (a & t' & -> & H);
      read_hyps;
      destruct H as (? & ? & ? & ? & ? & ? & ? & ? & ? & ?)
  end.

(** The readings of the rest of the trace that are empty. *)
Ltac use_facts_in H :=
  repeat match goal with
         | F : ?R ?t = [] |- _ =>
             lazymatch type of H with context [R t] => rewrite F in H end
         end;
  cbn [app] in H.

Ltac use_facts :=
  read_calls_goal;
  repeat match goal with
         | F : ?R ?t = [] |- context [?R ?t] => rewrite F
         end;
  cbn [app].

(** ** What reaches the executor *)

Lemma before_cons who e t :
  before who (e :: t) = if collaborator_eqb (called e) who then [] else e :: before who t.
Proof. reflexivity. Qed.

(** X1.  The executor is called at most once in a request, and only with a
    text that the generator returned in that request, that does not start
    with the error token, and that was given to the validator before: the
    call of the generator that returned the text comes before the call of
    the validator, and the call of the validator on that text comes
    before the call of the executor. *)
Theorem executor_runs_generated_and_checked_text :
  forall W (h : handler W) (w : W) (system_prompt : string) (req : request),
    executed (trace (serve h w system_prompt req)) = []
    \/ exists sql_query answer verdict,
        executed (trace (serve h w system_prompt req)) = [(sql_query, answer)]
        /\ generated (trace (serve h w system_prompt req)) = [Ok sql_query]
        /\ PyStr.startswith sql_query "ERROR:" = false
        /\ validated (trace (serve h w system_prompt req)) = [(sql_query, verdict)]
        /\ generated (before Validator (trace (serve h w system_prompt req)))
           = [Ok sql_query]
        /\ validated (before Executor (trace (serve h w system_prompt req)))
           = [(sql_query, verdict)].
Proof.
  intros W h w system_prompt req.
  served_upto_execution H Q.
  all: try (meet_execution H; right; do 3 eexists;
            rewrite ?before_cons; cbn [called callee collaborator_eqb];
            use_facts; repeat split; (reflexivity || assumption)).
  all: left; read_closed; reflexivity.
Qed.

(** ** What reaches the generator and the rate limiter *)

(** X2.  The generator is called at most once, only for a request that carries
    a query, only after the global figure was read above zero and
    [check_ip_limit] answered [True]; it is given the query as submitted
    (the form field first, the JSON body otherwise) and the system
    prompt. *)
Theorem generator_called_only_when_admitted :
  forall W (h : handler W) (w : W) (system_prompt : string) (req : request),
    generator_calls (trace (serve h w system_prompt req)) = []
    \/ exists user_query global_remaining,
        submitted_query req = Some user_query
        /\ generator_calls (trace (serve h w system_prompt req))
           = [(user_query, system_prompt)]
        /\ first_global_remaining (trace (serve h w system_prompt req))
           = Some (Ok global_remaining)
        /\ 0 < global_remaining
        /\ ip_limit_answers (trace (serve h w system_prompt req)) = [Ok true].
Proof.
  intros W h w system_prompt req.
  served_upto_execution H Q.
  all: repeat match goal with
              | Hn : negb ?b = _ |- _ => destruct b; try discriminate; clear Hn
              end.
  all: first [ meet_execution H; right; do 2 eexists; use_facts
             | left; read_closed; reflexivity
             | right; do 2 eexists; read_closed ].
  all: repeat split; try reflexivity; try eassumption; apply Z.leb_gt; assumption.
Qed.

(** X3.  Every address given to [IPTracker] (limit check, remaining figure,
    history entry) is the client address resolved in step 2. *)
Theorem tracker_is_given_the_resolved_address :
  forall W (h : handler W) (w : W) (system_prompt : string) (req : request),
    Forall (fun ip => client_address req = Ok ip)
      (tracker_addresses (trace (serve h w system_prompt req))).
Proof.
  intros W h w system_prompt req.
  served_upto_execution H Q.
  all: first [ meet_execution H; use_facts | read_closed ].
  all: repeat (constructor; [reflexivity|]); try constructor.
  all: match goal with
       | F : Forall (eq ?ip) ?l |- Forall _ ?l =>
           eapply List.Forall_impl; [|exact F]; intros ? <-; reflexivity
       end.
Qed.

(** ** What the rate limiter is asked to record *)










(** ** What is written to the history *)

(** X4.  Every history entry of a request carries the resolved client address,
    the query as submitted and the text the generator returned; an entry
    tagged as succeeded is written only when the executor returned
    rows. *)
Theorem history_entries_are_faithful :
  forall W (h : handler W) (w : W) (system_prompt : string) (req : request),
    Forall (fun entry =>
              client_address req = Ok (client_ip entry)
              /\ submitted_query req = Some (natural_language_query entry)
              /\ generated (trace (serve h w system_prompt req))
                 = [Ok (generated_sql entry)]
              /\ (succeeded entry = true ->
                  exists json_result,
                    executed (trace (serve h w system_prompt req))
                    = [(generated_sql entry, Ok json_result)]))
      (recorded (trace (serve h w system_prompt req))).
Proof.
  intros W h w system_prompt req.
  served_upto_execution H Q.
  all: first
         [ meet_execution H; use_facts;
           match goal with
           | F : recorded ?t = _ |- context [recorded ?t] =>
               rewrite F; clear F;
               match goal with
               | |- context [match ?a with Ok _ => _ | Raise _ => _ end] => destruct a
               end;
               try match goal with
                   | |- context [if ?b then _ else _] => destruct b
                   end
           end;
           cbn [app]
         | read_closed ].
  all: repeat (constructor;
               [cbn [client_ip natural_language_query generated_sql succeeded];
                repeat split; try assumption; try reflexivity; try discriminate;
                intros _; eexists; reflexivity |]).
  all: constructor.
Qed.

(** ** The endpoint answers *)

(** X5.  As long as the loggers and the log database return normally,
    [process_query] returns a dictionary and lets no exception of class
    [Exception] out, whichever exceptions of that class the rate limiter,
    the generator, the validator and the executor raise; the dictionary
    holds either [result] or [error], never both. *)
Theorem endpoint_answers_unless_logging_fails :
  forall W (h : handler W) (w : W) (system_prompt : string) (req : request),
    only_raise [RateLimiter; Generator; Validator; Executor]
      (trace (serve h w system_prompt req)) = true ->
    exists resp,
      outcome (serve h w system_prompt req) = Ok resp
      /\ (field "result" resp = None <-> field "error" resp <> None).
Proof.
  intros W h w system_prompt req Hr.
  served_upto_execution H Q.
  all: first
         [ meet_execution H;
           match goal with
           | F : only_raise [RateLimiter; Generator; Validator; Executor] ?t = true -> _
             |- _ => apply F; apply andb_true_iff in Hr; apply Hr
           end
         | eexists; split; [reflexivity|]; read_response; split; congruence ].
Qed.

Lemma endpoint_answers_unless_logging_fails_witness :
  exists resp,
    outcome (serve (scripted world_tracker_fault) tt "PROMPT" a_request) = Ok resp
    /\ (field "result" resp = None <-> field "error" resp <> None).
Proof.
  exact (endpoint_answers_unless_logging_fails unit (scripted world_tracker_fault) tt
           "PROMPT" a_request eq_refl).
Defined.

(** ** A query the validator rejects (step 6.5) *)

(** X6.  When the validator says that the generated query is not valid and
    every call returns normally, the executor is not called, one failed
    history entry is recorded for the query, and the response carries the
    query and the validator's reason after a fixed prefix. *)
Theorem validation_rejection_is_not_executed :
  forall W (h : handler W) (w : W) (system_prompt : string) (req : request)
         (sql_query : string) (reason : option string),
    validated (trace (serve h w system_prompt req)) = [(sql_query, Ok (false, reason))] ->
    only_raise [] (trace (serve h w system_prompt req)) = true ->
    executed (trace (serve h w system_prompt req)) = []
    /\ (exists ip user_query,
          recorded (trace (serve h w system_prompt req))
          = [mk_attempt ip user_query sql_query false])
    /\ exists remaining,
        outcome (serve h w system_prompt req)
        = Ok [("sql_query", VStr sql_query);
              ("error", VStr ("I don't answer unsafe query: " ++ str_opt reason));
              ("remaining_requests", remaining)].
Proof.
  intros W h w system_prompt req sql_query reason Hv Hr.
  served_upto_execution H Q.
  all: try (meet_execution H; use_facts_in Hv; discriminate).
  all: read_closed; repeat split; eauto.
Qed.

Lemma validation_rejection_is_not_executed_witness :
  executed
    (trace (serve (scripted world_rejecting)
              tt "PROMPT" a_request))
  = [].
Proof.
  apply (validation_rejection_is_not_executed unit (scripted world_rejecting) tt "PROMPT" a_request
           "SELECT name FROM matches; DROP TABLE matches"
           (Some "Multiple statements are not allowed") eq_refl eq_refl).
Defined.

(** X7.  The rejection is lost when a call of the rate limiter fails after it.
    When the validator says that the query is not valid and then a call
    to [IPTracker] raises (recording the failed attempt, or reading the
    remaining figures for the response), the [except] branch of step 6.5
    catches that exception too, and the rejected query is given to the
    executor. *)
Theorem rejected_query_is_executed_when_the_tracker_fails :
  forall W (h : handler W) (w : W) (system_prompt : string) (req : request)
         (sql_query : string) (reason : option string),
    validated (trace (serve h w system_prompt req)) = [(sql_query, Ok (false, reason))] ->
    only_raise [RateLimiter; Executor] (trace (serve h w system_prompt req)) = true ->
    only_raise [] (trace (serve h w system_prompt req)) = false ->
    exists answer,
      executed (trace (serve h w system_prompt req)) = [(sql_query, answer)].
Proof.
  intros W h w system_prompt req sql_query reason Hv Hr Hraised.
  served_upto_execution H Q.
  all: meet_execution H; eexists; use_facts; reflexivity.
Qed.

Lemma rejected_query_is_executed_when_the_tracker_fails_witness :
  exists answer,
    executed
      (trace (serve (scripted world_rejecting_tracker_fault)
                tt "PROMPT" a_request))
    = [("SELECT name FROM matches; DROP TABLE matches", answer)].
Proof.
  apply (rejected_query_is_executed_when_the_tracker_fails unit
           (scripted world_rejecting_tracker_fault) tt "PROMPT" a_request
           "SELECT name FROM matches; DROP TABLE matches"
           (Some "Multiple statements are not allowed") eq_refl eq_refl eq_refl).
Defined.

(** ** After the executor has answered (step 7) *)

(** X8.  When the executor returns rows and every later call returns normally,
    the request ends as written in lines 241-260: the history entry is
    recorded as succeeded first, the remaining figures are read after it,
    and the response carries the query, the rows and those figures. *)
Theorem successful_request :
  forall W (h : handler W) (w : W) (system_prompt : string) (req : request)
         (sql_query : string) (json_result : rows),
    executed (trace (serve h w system_prompt req)) = [(sql_query, Ok json_result)] ->
    only_raise [] (since_execution (trace (serve h w system_prompt req))) = true ->
    exists ip user_query u g,
      client_address req = Ok ip
      /\ submitted_query req = Some user_query
      /\ since_execution (trace (serve h w system_prompt req))
         = [Ev (IPTracker_record_query_history ip user_query sql_query true) (Ok tt);
            Ev (logger_info ("Query executed successfully with "
                             ++ PyStr.of_nat (List.length json_result)
                             ++ " results (numeric values rounded to 2 decimal places)"))
               (Ok tt);
            Ev (LogManager_log_app_activity INFO
                  ("Successful query from " ++ ip ++ ": "
                   ++ PyStr.take 50 user_query ++ "...")) (Ok tt);
            Ev (IPTracker_get_ip_remaining_requests ip) (Ok u);
            Ev IPTracker_get_global_remaining_requests (Ok g)]
      /\ outcome (serve h w system_prompt req)
         = Ok [("sql_query", VStr sql_query); ("result", VRows json_result);
               ("remaining_requests",
                VDict [("user_remaining", VInt u); ("global_remaining", VInt g)])].
Proof.
  intros W h w system_prompt req sql_query json_result He Hs.
  served_upto_execution H Q.
  all: meet_execution H; use_facts_in He; simplify_eq.
  all: match goal with
       | F : only_raise [] ?t = true -> _, Hs : only_raise [] ?t = true |- _ =>
           destruct (F Hs) as (u & g & -> & ->)
       end.
  all: exists ip, s, u, g; read_calls_goal; repeat split; reflexivity.
Qed.

Lemma successful_request_witness :
  exists ip user_query u g,
    client_address a_request = Ok ip
    /\ submitted_query a_request = Some user_query
    /\ since_execution (trace (serve (scripted world_fine) tt "PROMPT" a_request))
       = [Ev (IPTracker_record_query_history ip user_query "SELECT name FROM matches" true)
            (Ok tt);
          Ev (logger_info ("Query executed successfully with "
                           ++ PyStr.of_nat (List.length [[("name", "x")]])
                           ++ " results (numeric values rounded to 2 decimal places)"))
             (Ok tt);
          Ev (LogManager_log_app_activity INFO
                ("Successful query from " ++ ip ++ ": "
                 ++ PyStr.take 50 user_query ++ "...")) (Ok tt);
          Ev (IPTracker_get_ip_remaining_requests ip) (Ok u);
          Ev IPTracker_get_global_remaining_requests (Ok g)]
    /\ outcome (serve (scripted world_fine) tt "PROMPT" a_request)
       = Ok [("sql_query", VStr "SELECT name FROM matches");
             ("result", VRows [[("name", "x")]]);
             ("remaining_requests",
              VDict [("user_remaining", VInt u); ("global_remaining", VInt g)])].
Proof.
  exact (successful_request unit (scripted world_fine) tt "PROMPT" a_request
           "SELECT name FROM matches" [[("name", "x")]] eq_refl eq_refl).
Defined.

(** X9.  When the executor returns rows and a later call raises (recording the
    history entry, logging the success, reading the remaining figures),
    the [except] branch of step 7 runs for a query that succeeded: the
    history receives a second entry, tagged as failed, after the one
    tagged as succeeded, and the rows are not returned. *)
Theorem success_recorded_then_failure :
  forall W (h : handler W) (w : W) (system_prompt : string) (req : request)
         (sql_query : string) (json_result : rows),
    executed (trace (serve h w system_prompt req)) = [(sql_query, Ok json_result)] ->
    only_raise [] (since_execution (trace (serve h w system_prompt req))) = false ->
    (exists ip user_query,
       recorded (since_execution (trace (serve h w system_prompt req)))
       = [mk_attempt ip user_query sql_query true;
          mk_attempt ip user_query sql_query false])
    /\ forall resp,
        outcome (serve h w system_prompt req) = Ok resp -> field "result" resp = None.
Proof.
  intros W h w system_prompt req sql_query json_result He Hs.
  served_upto_execution H Q.
  all: meet_execution H; use_facts_in He; simplify_eq.
  all: read_calls_goal.
  all: match goal with
       | F : recorded ?t = _, G : only_raise [] ?t = false -> _,
         Hs : only_raise [] ?t = false |- _ =>
           rewrite Hs in F; split; [do 2 eexists; exact F | exact (G Hs)]
       end.
Qed.

Lemma success_recorded_then_failure_witness :
  exists ip user_query,
    recorded (since_execution
                (trace (serve (scripted world_fine_tracker_fault) tt "PROMPT" a_request)))
    = [mk_attempt ip user_query "SELECT name FROM matches" true;
       mk_attempt ip user_query "SELECT name FROM matches" false].
Proof.
  exact (proj1 (success_recorded_then_failure unit (scripted world_fine_tracker_fault) tt
                  "PROMPT" a_request "SELECT name FROM matches" [[("name", "x")]]
                  eq_refl eq_refl)).
Defined.

(** ** A failure of the generator (step 5) *)

(** X10.  When the generator call raises and every other call returns normally,
    the response is the fixed try-again message with the remaining
    figures; neither the validator nor the executor is called, no history
    entry is recorded, and the exception text goes to the loggers only. *)
Theorem generation_failure_is_generic :
  forall W (h : handler W) (w : W) (system_prompt : string) (req : request) (e : string),
    generated (trace (serve h w system_prompt req)) = [Raise e] ->
    only_raise [Generator] (trace (serve h w system_prompt req)) = true ->
    (exists u g,
       outcome (serve h w system_prompt req)
       = Ok [("error", VStr msg_try_later);
             ("remaining_requests",
              VDict [("user_remaining", VInt u); ("global_remaining", VInt g)])])
    /\ validated (trace (serve h w system_prompt req)) = []
    /\ executed (trace (serve h w system_prompt req)) = []
    /\ recorded (trace (serve h w system_prompt req)) = []
    /\ In ("Failed to generate SQL: " ++ e) (logged (trace (serve h w system_prompt req))).
Proof.
  intros W h w system_prompt req e Hg Hr.
  served_upto_execution H Q.
  all: try (meet_execution H; use_facts_in Hg; discriminate).
  all: read_closed; repeat split; eauto 10.
Qed.

Lemma generation_failure_is_generic_witness :
  exists u g,
    outcome (serve (scripted world_generator_fault) tt "PROMPT" a_request)
    = Ok [("error", VStr msg_try_later);
          ("remaining_requests",
           VDict [("user_remaining", VInt u); ("global_remaining", VInt g)])].
Proof.
  exact (proj1 (generation_failure_is_generic unit (scripted world_generator_fault) tt
                  "PROMPT" a_request "model timeout" eq_refl eq_refl)).
Defined.

(** ** Rejection by the limit of the address (step 4) *)

(** X11.  When [check_ip_limit] answers [False] and every call returns
    normally, the response is the per-address message with the figure
    that [get_ip_remaining_requests] returned; the generator is not
    called and nothing is written to the history. *)
Theorem ip_limit_rejection :
  forall W (h : handler W) (w : W) (system_prompt : string) (req : request),
    ip_limit_answers (trace (serve h w system_prompt req)) = [Ok false] ->
    only_raise [] (trace (serve h w system_prompt req)) = true ->
    exists ip ip_remaining,
      In (Ev (IPTracker_get_ip_remaining_requests ip) (Ok ip_remaining))
         (trace (serve h w system_prompt req))
      /\ outcome (serve h w system_prompt req)
         = Ok [("error", VStr (msg_ip_limit ip_remaining))]
      /\ generator_calls (trace (serve h w system_prompt req)) = []
      /\ recorded (trace (serve h w system_prompt req)) = [].
Proof.
  intros W h w system_prompt req Hi Hr.
  served_upto_execution H Q.
  all: try (meet_execution H; use_facts_in Hi; discriminate).
  all: do 2 eexists; read_closed; repeat split; eauto 10.
Qed.

Lemma ip_limit_rejection_witness :
  exists ip ip_remaining,
    In (Ev (IPTracker_get_ip_remaining_requests ip) (Ok ip_remaining))
       (trace (serve (scripted world_ip_exhausted) tt "PROMPT" a_request))
    /\ outcome (serve (scripted world_ip_exhausted) tt "PROMPT" a_request)
       = Ok [("error", VStr (msg_ip_limit ip_remaining))]
    /\ generator_calls (trace (serve (scripted world_ip_exhausted) tt "PROMPT" a_request))
       = []
    /\ recorded (trace (serve (scripted world_ip_exhausted) tt "PROMPT" a_request)) = [].
Proof.
  exact (ip_limit_rejection unit (scripted world_ip_exhausted) tt "PROMPT" a_request
           eq_refl eq_refl).
Defined.

(** ** Requests that do not reach admission *)

(** X12.  A request with neither form field nor JSON body (lines 111-113): the
    only call made is [logger.error], the response is the fixed message;
    this happens before the outer [try], so that an exception of the
    logger leaves the endpoint. *)
Theorem request_without_query_is_answered_before_the_try :
  forall W (h : handler W) (w : W) (system_prompt : string) (req : request),
    submitted_query req = None ->
    trace (serve h w system_prompt req)
    = [Ev (logger_error "No query provided in request")
          (snd (h unit (logger_error "No query provided in request") w))]
    /\ outcome (serve h w system_prompt req)
       = match snd (h unit (logger_error "No query provided in request") w) with
         | Ok _ => Ok [("error", VStr msg_no_query)]
         | Raise e => Raise e
         end.
Proof.
  intros W h w system_prompt req Q.
  unfold serve. rewrite (process_query_no_query _ _ Q).
  unfold perform, mbind, mret, prog_bind, prog_ret. cbn [run bind trace outcome final].
  destruct (h unit (logger_error "No query provided in request") w) as [w' [[]|e]];
    split; reflexivity.
Qed.

Lemma request_without_query_witness :
  outcome (serve (scripted world_fine) tt "PROMPT" request_without_query)
  = Ok [("error", VStr msg_no_query)].
Proof.
  exact (proj2 (request_without_query_is_answered_before_the_try unit (scripted world_fine)
                  tt "PROMPT" request_without_query eq_refl)).
Defined.

Lemma client_address_missing req :
  (x_forwarded_for req = None \/ x_forwarded_for req = Some "") ->
  client_host req = None ->
  client_address req = Raise "'NoneType' object has no attribute 'host'".
Proof.
  unfold client_address. intros [-> | ->] ->; reflexivity.
Qed.

(** X13.  A request with a query, without a usable [X-Forwarded-For] header and
    without transport address (lines 124-128, 280-291): resolving the
    address raises inside the outer [try]; the rate limiter is never
    asked, the log database receives the address ["unknown"], and the
    response exposes the text of the attribute error under [details]. *)
Theorem request_without_client_address :
  forall W (h : handler W) (w : W) (system_prompt : string) (req : request)
         (user_query : string),
    (x_forwarded_for req = None \/ x_forwarded_for req = Some "") ->
    client_host req = None ->
    submitted_query req = Some user_query ->
    only_raise [] (trace (serve h w system_prompt req)) = true ->
    trace (serve h w system_prompt req)
    = [Ev (logger_info ("Received query: " ++ user_query)) (Ok tt);
       Ev (logger_error ("Validation error in process_query: "
                         ++ "'NoneType' object has no attribute 'host'")) (Ok tt);
       Ev (LogManager_log_to_db ERROR
             ("Validation error: " ++ "'NoneType' object has no attribute 'host'")
             (Some "API endpoint") "unknown") (Ok tt)]
    /\ outcome (serve h w system_prompt req)
       = Ok [("error", VStr msg_invalid_format);
             ("details", VStr "'NoneType' object has no attribute 'host'")].
Proof.
  intros W h w system_prompt req user_query Hfwd Hhost Q' Hr.
  pose proof (client_address_missing req Hfwd Hhost) as Ha.
  served_upto_execution H Q.
  all: try (meet_execution H; discriminate).
  all: rewrite ?Hhost;
    repeat match goal with u : unit |- _ => destruct u end;
    split; reflexivity.
Qed.

Lemma request_without_client_address_witness :
  outcome (serve (scripted world_fine) tt "PROMPT" request_without_address)
  = Ok [("error", VStr msg_invalid_format);
        ("details", VStr "'NoneType' object has no attribute 'host'")].
Proof.
  exact (proj2 (request_without_client_address unit (scripted world_fine) tt "PROMPT"
                  request_without_address "top scorer of 2019"
                  (or_introl eq_refl) eq_refl eq_refl eq_refl)).
Defined.

(** ** The address taken from [X-Forwarded-For] *)

Lemma prefix_empty s : String.prefix "" s = true.
Proof. destruct s; reflexivity. Qed.

Lemma prefix_comma_head c s s' :
  String.prefix "," (String c s) = String.prefix "," (String c s').
Proof.
  cbn [String.prefix]. destruct (ascii_dec "," c); [|reflexivity].
  rewrite !prefix_empty. reflexivity.
Qed.

Lemma prefix_comma_other c s :
  Ascii.eqb c "," = false -> String.prefix "," (String c s) = false.
Proof.
  intros Hc. cbn [String.prefix]. destruct (ascii_dec "," c) as [<-|]; [|reflexivity].
  rewrite Ascii.eqb_refl in Hc. discriminate.
Qed.

Lemma split_head_has_no_comma s : PyStr.contains "," (PyStr.split_head "," s) = false.
Proof.
  induction s as [|c s IH]; cbn [PyStr.split_head]; [reflexivity|].
  destruct (Ascii.eqb c ",") eqn:Hc; [reflexivity|].
  cbn [PyStr.contains]. rewrite (prefix_comma_other _ _ Hc), IH. reflexivity.
Qed.

Lemma lstrip_keeps_comma_free s :
  PyStr.contains "," s = false -> PyStr.contains "," (PyStr.lstrip s) = false.
Proof.
  induction s as [|c s IH]; [intros; reflexivity|].
  intros H. cbn [PyStr.lstrip]. destruct (PyStr.is_space c); [|exact H].
  cbn [PyStr.contains] in H. apply orb_false_iff in H as [_ H]. exact (IH H).
Qed.

Lemma rstrip_keeps_comma_free s :
  PyStr.contains "," s = false -> PyStr.contains "," (PyStr.rstrip s) = false.
Proof.
  induction s as [|c s IH]; [intros; reflexivity|].
  intros H. cbn [PyStr.contains] in H. apply orb_false_iff in H as [Hp Hc].
  specialize (IH Hc). cbn [PyStr.rstrip].
  destruct (PyStr.rstrip s) as [|d r].
  - destruct (PyStr.is_space c); [reflexivity|].
    cbn [PyStr.contains]. rewrite (prefix_comma_head c "" s), Hp. reflexivity.
  - cbn [PyStr.contains] in IH |- *.
    rewrite (prefix_comma_head c (String d r) s), Hp, IH. reflexivity.
Qed.

Lemma lstrip_length s : (String.length (PyStr.lstrip s) <= String.length s)%nat.
Proof.
  induction s as [|c s IH]; cbn [PyStr.lstrip String.length]; [lia|].
  destruct (PyStr.is_space c); cbn [String.length]; lia.
Qed.

Lemma lstrip_lstrip s : PyStr.lstrip (PyStr.lstrip s) = PyStr.lstrip s.
Proof.
  induction s as [|c s IH]; [reflexivity|].
  cbn [PyStr.lstrip]. destruct (PyStr.is_space c) eqn:Hc; [exact IH|].
  cbn [PyStr.lstrip]. rewrite Hc. reflexivity.
Qed.

(** Right stripping does not bring white space to the front. *)
Lemma lstrip_rstrip s :
  PyStr.lstrip s = s -> PyStr.lstrip (PyStr.rstrip s) = PyStr.rstrip s.
Proof.
  destruct s as [|c s]; [reflexivity|].
  cbn [PyStr.lstrip]. destruct (PyStr.is_space c) eqn:Hc.
  - intros H. pose proof (lstrip_length s) as Hl. rewrite H in Hl.
    cbn [String.length] in Hl. lia.
  - intros _. cbn [PyStr.rstrip].
    destruct (PyStr.rstrip s); rewrite ?Hc; cbn [PyStr.lstrip]; rewrite Hc; reflexivity.
Qed.

Lemma rstrip_rstrip s : PyStr.rstrip (PyStr.rstrip s) = PyStr.rstrip s.
Proof.
  induction s as [|c s IH]; [reflexivity|].
  cbn [PyStr.rstrip]. destruct (PyStr.rstrip s) as [|d r] eqn:Hr.
  - destruct (PyStr.is_space c) eqn:Hc; [reflexivity|].
    cbn [PyStr.rstrip]. rewrite Hc. reflexivity.
  - cbn [PyStr.rstrip] in IH |- *. rewrite IH. reflexivity.
Qed.

Lemma strip_strip s : PyStr.strip (PyStr.strip s) = PyStr.strip s.
Proof.
  unfold PyStr.strip.
  rewrite (lstrip_rstrip (PyStr.lstrip s) (lstrip_lstrip s)).
  apply rstrip_rstrip.
Qed.

(** X14.  When the request carries a non-empty [X-Forwarded-For] header, the
    client address is its first comma-separated element, stripped,
    whatever the transport address is: it holds no comma, and stripping
    it again changes nothing. *)
Theorem forwarded_address_is_first_element :
  forall (req : request) (c : ascii) (f : string),
    x_forwarded_for req = Some (String c f) ->
    client_address req = Ok (PyStr.strip (PyStr.split_head "," (String c f)))
    /\ PyStr.contains "," (PyStr.strip (PyStr.split_head "," (String c f))) = false
    /\ PyStr.strip (PyStr.strip (PyStr.split_head "," (String c f)))
       = PyStr.strip (PyStr.split_head "," (String c f)).
Proof.
  intros req c f Hf. unfold client_address. rewrite Hf.
  split; [reflexivity|]. split; [|apply strip_strip].
  unfold PyStr.strip.
  apply rstrip_keeps_comma_free, lstrip_keeps_comma_free, split_head_has_no_comma.
Qed.

Lemma forwarded_address_is_first_element_witness :
  client_address a_request = Ok "10.0.0.7".
Proof.
  exact (proj1 (forwarded_address_is_first_element a_request "1" "0.0.0.7, 10.0.0.1"
                  eq_refl)).
Defined.

Lemma error_reason_single_marker_witness :
  PyStr.strip (PyStr.replace "ERROR: no such table" "ERROR:" "")
  = reason_after_marker "ERROR: no such table".
Proof.
  exact (error_reason_single_marker "ERROR: no such table" eq_refl eq_refl).
Defined.

(** ** The endpoint [record_feedback] *)

(** X16.  [record_feedback] calls the feedback manager at most once, with the
    resolved client address and the three texts as submitted.  The
    response says [success] only when that call returned [True]; when it
    returned [False] the response is the fixed failure message; when it
    raised, the response holds the text of that exception under
    [message]; when the manager was not reached, it holds the text of the
    exception that stopped the request: the one of the address
    resolution, or the one [logger.info] raised. *)
Theorem record_feedback_answers :
  forall W (h : Feedback.handler W) (w : W) (req : request)
         (user_query sql_query feedback_type : string),
    match Feedback.recorded
            (Feedback.calls
               (Feedback.record_feedback h w req user_query sql_query feedback_type))
    with
    | [] =>
        exists e,
          (client_address req = Raise e
           \/ exists ip,
               client_address req = Ok ip
               /\ snd (h unit
                         (Feedback.logger_info
                            ("Feedback received from IP: " ++ ip ++ ", Type: "
                             ++ feedback_type)) w)
                  = Raise e)
          /\ forall resp,
              Feedback.answer
                (Feedback.record_feedback h w req user_query sql_query feedback_type)
              = Ok resp ->
              resp = [("status", VStr "error"); ("message", VStr e)]
    | [entry] =>
        let '(ip, q, s, f, a) := entry in
        client_address req = Ok ip /\ q = user_query /\ s = sql_query
        /\ f = feedback_type
        /\ forall resp,
            Feedback.answer
              (Feedback.record_feedback h w req user_query sql_query feedback_type)
            = Ok resp ->
            resp = match a with
                   | Ok true => [("status", VStr "success");
                                 ("message", VStr "Feedback recorded successfully")]
                   | Ok false => [("status", VStr "error");
                                  ("message", VStr "Failed to record feedback")]
                   | Raise e => [("status", VStr "error"); ("message", VStr e)]
                   end
    | _ => False
    end.
Proof.
  intros W h w req user_query sql_query feedback_type.
  unfold Feedback.record_feedback, Feedback.failed.
  destruct (client_address req) as [ip | e];
    cbn [Feedback.calls Feedback.answer Feedback.recorded flat_map app fst snd].
  - destruct (h unit (Feedback.logger_info _) w) as [w1 [[] | e1]] eqn:Hinfo;
      cbn [Feedback.calls Feedback.answer Feedback.recorded flat_map app fst snd].
    + destruct (h bool _ w1) as [w2 [[|] | e2]];
        cbn [Feedback.calls Feedback.answer Feedback.recorded flat_map app fst snd].
      * repeat split. intros resp [= <-]. reflexivity.
      * repeat split. intros resp [= <-]. reflexivity.
      * destruct (h unit _ w2) as [w3 [[] | e3]];
          cbn [Feedback.calls Feedback.answer Feedback.recorded flat_map app fst snd];
          repeat split; intros resp Hresp; simplify_eq; reflexivity.
    + exists e1. split; [right; exists ip; rewrite Hinfo; split; reflexivity|].
      destruct (h unit _ w1) as [w3 [[] | e3]];
        cbn [Feedback.calls Feedback.answer Feedback.recorded flat_map app fst snd];
        intros resp Hresp; simplify_eq; reflexivity.
  - exists e. split; [left; reflexivity|].
    destruct (h unit _ w) as [w3 [[] | e3]];
      cbn [Feedback.calls Feedback.answer Feedback.recorded flat_map app fst snd];
      intros resp Hresp; simplify_eq; reflexivity.
Qed.
